(** * SiftPilot backend: authentication and session lifecycle

    A shallow embedding of [deploy/index.js] (the server with Google
    sign-in) and [deploy/index-basic.js] (the server without it).

    The route handlers, the guard [requireAuth], the strategy's verify
    callback and the two serialisation hooks are transcribed from the
    JavaScript source, with the line numbers of [index.js] in the comments.
    The frameworks they are plugged into (Express, express-session,
    Passport and its Google strategy) are not part of the repository; the
    modules [Express], [SessionMw] and [Passport] below describe the part of
    their behaviour that the handlers rely on. Body parsing, CORS, security
    headers and the rate limiter of [/api/] are left out: a request enters
    the model after it has passed them. *)

From Stdlib Require Import ZArith String Ascii List Lia.
From stdpp Require Import base option list gmap strings.

Set Warnings "-register-all".

Local Open Scope Z_scope.
Local Open Scope string_scope.
Local Open Scope list_scope.

(** ** JavaScript values used by the program *)

Module Js.

(** [process.env]: every value is a string. *)
Abbreviation Env := (gmap string string).

(** Truthiness of [process.env.K]: unset and the empty string are falsy. *)
Definition truthy (o : option string) : bool :=
  match o with
  | Some s => negb (String.eqb s "")
  | None => false
  end.

(** [process.env.K || dflt] *)
Definition or_default (o : option string) (dflt : string) : string :=
  match o with
  | Some s => if String.eqb s "" then dflt else s
  | None => dflt
  end.

(** [process.env.K ? a : b] *)
Definition cond {A} (o : option string) (a b : A) : A :=
  if truthy o then a else b.

(** The values handed to [res.json]. *)
Inductive json :=
| JStr (s : string)
| JObj (fields : list (string * json)).

(** What can be thrown, or passed to [next(err)]. *)
Inductive Error :=
| TypeError (msg : string)
| OtherError (msg : string).

(** *** [Date.prototype.toISOString] *)

Definition digit (n : Z) : string :=
  String (ascii_of_N (48 + Z.to_N (n mod 10))) EmptyString.

(** [n] written with exactly [k] decimal digits. *)
Fixpoint pad (k : nat) (n : Z) : string :=
  match k with
  | O => EmptyString
  | S k' => pad k' (n / 10) +:+ digit n
  end.

Definition msPerDay : Z := 86400000.

(** Year, month and day of the proleptic Gregorian calendar for a day
    number counted from 1970-01-01. *)
Definition civil (days : Z) : Z * Z * Z :=
  let z := days + 719468 in
  let era := z / 146097 in
  let doe := z mod 146097 in
  let yoe := (doe - doe / 1460 + doe / 36524 - doe / 146096) / 365 in
  let doy := doe - (365 * yoe + yoe / 4 - yoe / 100) in
  let mp := (5 * doy + 2) / 153 in
  let d := doy - (153 * mp + 2) / 5 + 1 in
  let m := if Z.ltb mp 10 then mp + 3 else mp - 9 in
  let y := yoe + era * 400 + (if Z.leb m 2 then 1 else 0) in
  (y, m, d).

Definition year_string (y : Z) : string :=
  if Z.leb 0 y && Z.leb y 9999 then pad 4 y
  else (if Z.ltb y 0 then "-" else "+") +:+ pad 6 (Z.abs y).

(** [new Date(t).toISOString()] for a time value [t] in milliseconds. *)
Definition toISOString (t : Z) : string :=
  let '(y, m, d) := civil (t / msPerDay) in
  let r := t mod msPerDay in
  year_string y +:+ "-" +:+ pad 2 m +:+ "-" +:+ pad 2 d +:+ "T" +:+
  pad 2 (r / 3600000) +:+ ":" +:+ pad 2 (r / 60000 mod 60) +:+ ":" +:+
  pad 2 (r / 1000 mod 60) +:+ "." +:+ pad 3 (r mod 1000) +:+ "Z".

End Js.

Export Js.

(** ** Data model *)

(** The user record built by the verify callback (index.js:64-70); it is what
    the session keeps and what [req.user] holds. *)
Module User.
Record t := mk
  { id : string; email : string; name : string;
    provider : string; avatarUrl : string }.
End User.

(** Passport's normalised profile. [emails] and [photos] are arrays that
    may be missing from the object ([None]). *)
Module EmailEntry.
Record t := mk { value : string; verified : bool }.
End EmailEntry.

Module PhotoEntry.
Record t := mk { value : string }.
End PhotoEntry.

Module Profile.
Record t := mk
  { id : string; displayName : string;
    emails : option (list EmailEntry.t);
    photos : option (list PhotoEntry.t) }.
End Profile.

(** The provider's user-info document, before Passport normalises it. *)
Module UserInfo.
Record t := mk
  { sub : string; name : string;
    email : option string; email_verified : bool;
    picture : option string }.
End UserInfo.

(** A session as express-session keeps it: the serialised user under
    [session.passport.user], the state handle that an OAuth2 strategy
    configured with [state: true] would put there, and [cookie.expires]. *)
Record Session := mkSession
  { passport_user : option User.t;
    oauth_state : option string;
    expires : Z }.

(** The session store: session id to session. *)
Abbreviation Store := (gmap string Session).

(** [cookie.maxAge], index.js:39 *)
Definition maxAge : Z := 24 * 60 * 60 * 1000.

(** The identity provider, as seen through its two endpoints: the token
    endpoint answers an authorization code with an access and a refresh
    token, the user-info endpoint answers an access token with a document.
    [None] is a failed call. *)
Record Provider := mkProvider
  { token : string -> option (string * string);
    userinfo : string -> option UserInfo.t }.

(** What a request finds outside the program: the clock, the random
    identifiers the libraries draw, the provider, and the error (if any) with
    which the session store answers a write. *)
Record World := mkWorld
  { now : Z;
    fresh_sid : string;    (* id of a session created for this request *)
    regen_sid : string;    (* id drawn by [session.regenerate] *)
    fresh_state : string;  (* state handle drawn by the OAuth2 state store *)
    store_error : option Error;
    provider : Provider }.

(** The query parameters the program or its libraries look at. *)
Record Query := mkQuery
  { q_code : option string; q_state : option string; q_error : option string }.

(** A request on the wire. *)
Record HttpRequest := mkHttp
  { h_path : string; h_query : Query; h_cookie : option string }.

(** [req] as the routes see it, after the session and Passport middleware. *)
Record Req := mkReq
  { path : string; query : Query;
    sessionID : string; session : Session;
    user : option User.t }.

(** The parameters of the redirect that starts a sign-in. *)
Record AuthorizationRequest := mkAuthz
  { scope : list string; redirect_uri : string;
    client_id : string; state : option string }.

(** ** HTTP responses *)

Inductive Payload :=
| PJson (j : json)                   (* res.json(j) *)
| PText (lines : list string)        (* res.send(`...`), one element per line *)
| PRedirect (url : string)           (* res.redirect(url) *)
| PAuthorize (a : AuthorizationRequest). (* redirect to the provider *)

Record Response := mkResponse { status : Z; payload : Payload }.

(** [res.json(j)], [res.send(html)] and [res.redirect(url)] with the status
    Express gives them when the handler sets none. *)
Definition res_json (j : json) : Response := mkResponse 200 (PJson j).
Definition res_send (lines : list string) : Response := mkResponse 200 (PText lines).
Definition res_redirect (url : string) : Response := mkResponse 302 (PRedirect url).
(** [res.status(c).json(j)] *)
Definition res_status_json (c : Z) (j : json) : Response := mkResponse c (PJson j).

(** ** Express: middleware chains *)

Module Express.

(** What is observable of a request besides its response. *)
Inductive Event :=
| Entered (name : string)            (* a function of a route started to run *)
| TokenRequest (code : string)       (* the code was sent to the token endpoint *)
| ProfileRequest (accessToken : string)
| ConsoleError (e : Error).

(** How a middleware function ends. *)
Inductive Step :=
| Next (st : Store) (req : Req)       (* next() *)
| NextErr (st : Store) (e : Error)    (* next(err), or a synchronous throw *)
| Respond (st : Store) (r : Response)
| Uncaught (st : Store) (e : Error).  (* thrown where Express cannot catch it:
                                         an asynchronous callback, or a
                                         promise that nobody awaits *)

Definition Middleware := World -> Store -> Req -> list Event * Step.

(** The functions of a route run in order, each one only if the one before
    it called [next()]. *)
Fixpoint run (chain : list (string * Middleware))
    (w : World) (st : Store) (req : Req) : list Event * Step :=
  match chain with
  | [] => ([], Next st req)
  | (n, m) :: rest =>
      let '(ev, s) := m w st req in
      match s with
      | Next st' req' =>
          let '(ev', s') := run rest w st' req' in
          (Entered n :: ev ++ ev', s')
      | _ => (Entered n :: ev, s)
      end
  end.

(** How the request ends for the client. *)
Inductive Outcome :=
| Replied (r : Response)
| Unanswered (e : Error).

(** A handler written as a computation that may throw. *)
Definition Result (A : Type) : Type := Error + A.
Definition ret {A} (a : A) : Result A := inr a.
Definition throw {A} (e : Error) : Result A := inl e.
Definition bind {A B} (m : Result A) (k : A -> Result B) : Result B :=
  match m with
  | inl e => inl e
  | inr a => k a
  end.

(** A synchronous handler that sends what it computes; Express turns a
    throw into [next(err)]. *)
Definition sends (r : Result Response) : Middleware :=
  fun _ st _ =>
    match r with
    | inr resp => ([], Respond st resp)
    | inl e => ([], NextErr st e)
    end.

End Express.

Export Express.

Notation "'let*' x ':=' m 'in' k" := (bind m (fun x => k))
  (at level 10, x name, m at level 100, k at level 200).

(** [o.f] where [o] may be [undefined]: reading a property of [undefined]
    throws a [TypeError]. *)
Definition prop {A B} (f : A -> B) (o : option A) : Result B :=
  match o with
  | Some a => ret (f a)
  | None => throw (TypeError "Cannot read properties of undefined")
  end.

(** [a[0]] where the array itself may be [undefined]. *)
Definition first {A} (a : option (list A)) : Result (option A) :=
  match a with
  | Some l => ret (head l)
  | None => throw (TypeError "Cannot read properties of undefined")
  end.

(** ** express-session with its default in-memory store *)

Module SessionMw.

Definition new_session (w : World) : Session :=
  mkSession None None (now w + maxAge).

(** The store's [get]: a session whose [expires] has been reached is
    removed and counts as absent. *)
Definition get (w : World) (st : Store) (sid : string) : Store * option Session :=
  match st !! sid with
  | Some s =>
      if Z.leb (expires s) (now w) then (delete sid st, None) else (st, Some s)
  | None => (st, None)
  end.

(** The session middleware: the session named by the cookie if the store
    has it, a new one otherwise. With [saveUninitialized: false]
    (index.js:35) a new session is not stored until something is put in
    it. *)
Definition load (w : World) (st : Store) (h : HttpRequest) : Store * Req :=
  let fresh := mkReq (h_path h) (h_query h) (fresh_sid w) (new_session w) None in
  match h_cookie h with
  | Some sid =>
      let '(st', o) := get w st sid in
      match o with
      | Some s => (st', mkReq (h_path h) (h_query h) sid s None)
      | None => (st', fresh)
      end
  | None => (st, fresh)
  end.

(** At the end of a request the stored session named by the cookie, if it
    is still there, has its expiry moved to [now + maxAge]. *)
Definition touch (w : World) (h : HttpRequest) (st : Store) : Store :=
  match h_cookie h with
  | Some sid => alter (fun s => mkSession (passport_user s) (oauth_state s) (now w + maxAge)) sid st
  | None => st
  end.

End SessionMw.

(** ** Passport and the OAuth 2.0 strategy *)

Module Passport.

(** How a verify callback ends: it calls [done(err, user)], or it is an
    [async] function whose promise is rejected before it does. *)
Inductive Verified :=
| Done (err : option Error) (user : option User.t)
| Rejected (e : Error).

(** The options object given to the strategy's constructor; [None] is a
    key that is not there. *)
Record StrategyOptions := mkOptions
  { clientID : option string;
    clientSecret : option string;
    callbackURL : string;
    opt_state : option bool }.

(** Where the strategy keeps the anti-forgery state of a sign-in. *)
Inductive StateStore :=
| NullStore      (* keeps nothing, accepts every callback *)
| SessionStore.  (* a random handle in the session, compared on return *)

Record Strategy := mkStrategy
  { s_clientID : string;
    s_callbackURL : string;
    stateStore : StateStore;
    s_verify : string -> string -> Profile.t -> Verified }.

(** [new GoogleStrategy(options, verify)]: throws without a client id;
    chooses the state store from [options.state]. *)
Definition new_GoogleStrategy (o : StrategyOptions)
    (verify : string -> string -> Profile.t -> Verified) : Result Strategy :=
  match clientID o with
  | Some cid =>
      if String.eqb cid "" then throw (TypeError "OAuth2Strategy requires a clientID option")
      else ret (mkStrategy cid (callbackURL o)
                  (match opt_state o with
                   | Some true => SessionStore
                   | _ => NullStore
                   end)
                  verify)
  | None => throw (TypeError "OAuth2Strategy requires a clientID option")
  end.

(** The strategy's profile parser: [emails] and [photos] are only there
    when the document has a (non-empty) [email] or [picture]. *)
Definition parse (doc : UserInfo.t) : Profile.t :=
  Profile.mk (UserInfo.sub doc) (UserInfo.name doc)
    (match UserInfo.email doc with
     | Some e => if String.eqb e "" then None
                 else Some [EmailEntry.mk e (UserInfo.email_verified doc)]
     | None => None
     end)
    (match UserInfo.picture doc with
     | Some p => if String.eqb p "" then None else Some [PhotoEntry.mk p]
     | None => None
     end).

(** The strategies registered with [passport.use]: the program registers
    at most one, under the name [google]. *)
Abbreviation Registry := (option Strategy).

(** [req.isAuthenticated()] *)
Definition isAuthenticated (req : Req) : bool :=
  match user req with
  | Some _ => true
  | None => false
  end.

Section WithHooks.

(** The functions registered with [passport.serializeUser] and
    [passport.deserializeUser]; each ends in [done(err, value)]. *)
Variable serializeUser : User.t -> option Error * User.t.
Variable deserializeUser : User.t -> option Error * User.t.

(** [passport.session()]: [req.user] is what [deserializeUser] makes of
    [session.passport.user]. *)
Definition session_strategy : Middleware :=
  fun _ st req =>
    match passport_user (session req) with
    | Some su =>
        match deserializeUser su with
        | (Some e, _) => ([], NextErr st e)
        | (None, u) =>
            ([], Next st (mkReq (path req) (query req) (sessionID req) (session req) (Some u)))
        end
    | None => ([], Next st req)
    end.

(** [req.logIn(user, cb)]: the session is regenerated (the old one is
    destroyed, a new id is drawn), the serialised user is put in the new
    one, and it is saved. *)
Definition logIn (w : World) (st : Store) (req : Req) (u : User.t)
    : Result (Store * Req) :=
  match store_error w with
  | Some e => throw e
  | None =>
      match serializeUser u with
      | (Some e, _) => throw e
      | (None, obj) =>
          let s := mkSession (Some obj) None (now w + maxAge) in
          ret (<[regen_sid w := s]> (delete (sessionID req) st),
               mkReq (path req) (query req) (regen_sid w) s (Some u))
      end
  end.

(** [req.logout(cb)]: [req.user] is cleared, the user is taken out of the
    session and the session is saved, then regenerated. The new session is
    empty and is not stored. The first component is the [err] handed to
    [cb]. *)
Definition logOut (w : World) (st : Store) (req : Req) : option Error * Store * Req :=
  match store_error w with
  | Some e =>
      (Some e, st, mkReq (path req) (query req) (sessionID req) (session req) None)
  | None =>
      (None, delete (sessionID req) st,
       mkReq (path req) (query req) (regen_sid w) (SessionMw.new_session w) None)
  end.

(** Options of [passport.authenticate]. *)
Record AuthOptions := mkAuthOptions
  { a_scope : list string; failureRedirect : option string }.

(** [next(...)] where the caller may have passed no [next]: calling
    [undefined] throws, synchronously inside the route or later inside a
    callback. *)
Definition call_next (has_next sync : bool) (st : Store) (err : option Error) (req : Req) : Step :=
  if has_next then
    match err with
    | Some e => NextErr st e
    | None => Next st req
    end
  else if sync then NextErr st (TypeError "next is not a function")
  else Uncaught st (TypeError "next is not a function").

(** The strategy failed the request. *)
Definition fail (o : AuthOptions) (st : Store) (code : Z) : Step :=
  match failureRedirect o with
  | Some url => Respond st (res_redirect url)
  | None => Respond st (mkResponse code (PText ["Unauthorized"]))
  end.

(** No code in the query: redirect to the provider. The state store may
    add a state parameter and remember it in the session. *)
Definition begin (s : Strategy) (o : AuthOptions) (w : World) (st : Store) (req : Req) : Step :=
  match stateStore s with
  | NullStore =>
      Respond st (mkResponse 302
        (PAuthorize (mkAuthz (a_scope o) (s_callbackURL s) (s_clientID s) None)))
  | SessionStore =>
      let sess := mkSession (passport_user (session req)) (Some (fresh_state w))
                    (expires (session req)) in
      Respond (<[sessionID req := sess]> st) (mkResponse 302
        (PAuthorize (mkAuthz (a_scope o) (s_callbackURL s) (s_clientID s)
                       (Some (fresh_state w)))))
  end.

(** The state store's check of a callback. *)
Definition state_verify (s : Strategy) (st : Store) (req : Req) : bool * Store * Req :=
  match stateStore s with
  | NullStore => (true, st, req)
  | SessionStore =>
      match oauth_state (session req) with
      | None => (false, st, req)
      | Some handle =>
          let sess := mkSession (passport_user (session req)) None
                        (expires (session req)) in
          (bool_decide (q_state (query req) = Some handle),
           <[sessionID req := sess]> st,
           mkReq (path req) (query req) (sessionID req) sess (user req))
      end
  end.

(** A code in the query: check the state, exchange the code, fetch the
    profile, call the verify callback, log the user in. *)
Definition complete (s : Strategy) (o : AuthOptions) (has_next : bool)
    (code : string) : Middleware :=
  fun w st req =>
    let '(ok, st1, req1) := state_verify s st req in
    if negb ok then ([], fail o st1 403)
    else
      match token (provider w) code with
      | None =>
          ([TokenRequest code],
           call_next has_next false st1 (Some (OtherError "Failed to obtain access token")) req1)
      | Some (accessToken, refreshToken) =>
          let ev := [TokenRequest code; ProfileRequest accessToken] in
          match userinfo (provider w) accessToken with
          | None =>
              (ev, call_next has_next false st1
                     (Some (OtherError "Failed to fetch user profile")) req1)
          | Some doc =>
              match s_verify s accessToken refreshToken (parse doc) with
              | Rejected e => (ev, Uncaught st1 e)
              | Done (Some e) _ => (ev, call_next has_next false st1 (Some e) req1)
              | Done None None => (ev, fail o st1 401)
              | Done None (Some u) =>
                  match logIn w st1 req1 u with
                  | inl e => (ev, call_next has_next false st1 (Some e) req1)
                  | inr (st2, req2) => (ev, call_next has_next false st2 None req2)
                  end
              end
          end
      end.

(** A query parameter that is present and not empty. *)
Definition given (o : option string) : option string :=
  match o with
  | Some s => if String.eqb s "" then None else Some s
  | None => None
  end.

(** [passport.authenticate('google', options)], applied to [(req, res)]
    and, if [has_next], to [next]. *)
Definition authenticate (google : Registry) (o : AuthOptions) (has_next : bool)
    : Middleware :=
  fun w st req =>
    match google with
    | None =>
        ([], call_next has_next true st
               (Some (OtherError "Unknown authentication strategy")) req)
    | Some s =>
        match given (q_error (query req)) with
        | Some e =>
            if String.eqb e "access_denied" then ([], fail o st 401)
            else ([], call_next has_next true st (Some (OtherError e)) req)
        | None =>
            match given (q_code (query req)) with
            | Some code => complete s o has_next code w st req
            | None => ([], begin s o w st req)
            end
        end
    end.

End WithHooks.

End Passport.

Export Passport.

(** ** Markup helpers for the pages sent with [res.send] *)

(** The double-quote character. *)
Definition dq : string := String (ascii_of_nat 34) EmptyString.

(** [<a href="url">text</a>] followed by [tail]. *)
Definition anchor (url text tail : string) : string :=
  "<a href=" +:+ dq +:+ url +:+ dq +:+ ">" +:+ text +:+ "</a>" +:+ tail.

(** ** index.js *)

Module App.

(** [passport.serializeUser], index.js:48-50: [done(null, user)] *)
Definition serializeUser (user : User.t) : option Error * User.t := (None, user).

(** [passport.deserializeUser], index.js:52-54: [done(null, user)] *)
Definition deserializeUser (user : User.t) : option Error * User.t := (None, user).

(** The object literal of index.js:64-70. *)
Definition build_user (profile : Profile.t) : Result User.t :=
  let* e := first (Profile.emails profile) in
  let* email := prop EmailEntry.value e in
  let* ph := first (Profile.photos profile) in
  let* avatarUrl := prop PhotoEntry.value ph in
  ret (User.mk (Profile.id profile) email (Profile.displayName profile)
         "google" avatarUrl).

(** The strategy's verify callback, index.js:62-72. It is an [async]
    function: a throw inside it rejects its promise and [done] is never
    called. *)
Definition verify (accessToken refreshToken : string) (profile : Profile.t) : Verified :=
  match build_user profile with
  | inr user => Done None (Some user)
  | inl e => Rejected e
  end.

(** The options object of index.js:58-62. No [state] key is given. *)
Definition strategy_options (env : Env) : StrategyOptions :=
  mkOptions (env !! "GOOGLE_CLIENT_ID") (env !! "GOOGLE_CLIENT_SECRET")
    "/auth/google/callback" None.

(** What the module does when it is loaded, index.js:43-73: the hooks are
    registered and so is the strategy if both credentials are set.
    A throw here would end the process. *)
Definition startup (env : Env) : Result Registry :=
  if truthy (env !! "GOOGLE_CLIENT_ID") && truthy (env !! "GOOGLE_CLIENT_SECRET") then
    let* s := new_GoogleStrategy (strategy_options env) verify in
    ret (Some s)
  else ret None.

(** [requireAuth], index.js:76-81 *)
Definition requireAuth : Middleware :=
  fun _ st req =>
    if isAuthenticated req then ([], Next st req)
    else ([], Respond st
                (res_status_json 401 (JObj [("error", JStr "Authentication required")]))).

(** [app.get('/health', ...)], index.js:84-90 *)
Definition health (env : Env) : Middleware :=
  fun w =>
    sends (ret (res_json
      (JObj [ ("status", JStr "healthy");
              ("timestamp", JStr (toISOString (now w)));
              ("env", JStr (or_default (env !! "NODE_ENV") "development")) ]))) w.

(** [app.get('/test', ...)], index.js:92-103. [req.session] is always an
    object behind the session middleware. *)
Definition test (env : Env) : Middleware :=
  fun w st req =>
    sends
      (let* u := match user req with
                 | Some _ => prop User.email (user req)
                 | None => ret "not logged in"
                 end in
       ret (res_json
         (JObj [ ("message", JStr "SiftPilot backend is working!");
                 ("database", JStr (cond (env !! "DATABASE_URL") "configured" "not configured"));
                 ("oauth", JObj
                    [ ("google", JStr (cond (env !! "GOOGLE_CLIENT_ID") "configured" "not configured"));
                      ("microsoft", JStr (cond (env !! "MICROSOFT_CLIENT_ID") "configured" "not configured")) ]);
                 ("session", JStr "active");
                 ("user", JStr u) ]))) w st req.

(** [app.get('/auth/google', ...)], index.js:106-111.
    [passport.authenticate] is applied to [(req, res)] only. *)
Definition auth_google (env : Env) (google : Registry) : Middleware :=
  fun w st req =>
    if negb (truthy (env !! "GOOGLE_CLIENT_ID")) then
      ([], Respond st
             (res_status_json 500 (JObj [("error", JStr "Google OAuth not configured")])))
    else authenticate serializeUser google
           (mkAuthOptions ["profile"; "email"] None) false w st req.

(** The two functions of [app.get('/auth/google/callback', ...)],
    index.js:113-118. *)
Definition callback_authenticate (google : Registry) : Middleware :=
  authenticate serializeUser google (mkAuthOptions [] (Some "/login-failed")) true.

Definition callback : Middleware :=
  sends (ret (res_redirect "/dashboard")).

(** [app.get('/login-failed', ...)], index.js:120-126 *)
Definition login_failed : Middleware :=
  sends (ret (res_send
    [ "<h1>❌ Login Failed</h1>";
      "<p>OAuth configuration might be incorrect.</p>";
      anchor "/" "Go back home" "" ])).

(** [app.get('/dashboard', requireAuth, ...)], index.js:129-140: the
    function after the guard. *)
Definition dashboard : Middleware :=
  fun w st req =>
    sends
      (let* name := prop User.name (user req) in
       let* email := prop User.email (user req) in
       let* provider := prop User.provider (user req) in
       let* avatarUrl := prop User.avatarUrl (user req) in
       ret (res_send
         [ "<h1>✅ Welcome " +:+ name +:+ "!</h1>";
           "<p>Email: " +:+ email +:+ "</p>";
           "<p>Provider: " +:+ provider +:+ "</p>";
           "<img src=" +:+ dq +:+ avatarUrl +:+ dq +:+ " width=" +:+ dq +:+ "50" +:+ dq
             +:+ " height=" +:+ dq +:+ "50" +:+ dq +:+ ">";
           "<br><br>";
           anchor "/api/user" "View User API" "<br>";
           anchor "/auth/logout" "Logout" "<br>";
           anchor "/" "Home" "" ])) w st req.

(** [app.get('/api/user', requireAuth, ...)], index.js:142-150: the
    function after the guard. *)
Definition api_user : Middleware :=
  fun w st req =>
    sends
      (let* id := prop User.id (user req) in
       let* email := prop User.email (user req) in
       let* name := prop User.name (user req) in
       let* provider := prop User.provider (user req) in
       let* avatarUrl := prop User.avatarUrl (user req) in
       ret (res_json
         (JObj [ ("id", JStr id); ("email", JStr email); ("name", JStr name);
                 ("provider", JStr provider); ("avatarUrl", JStr avatarUrl) ]))) w st req.

(** [app.get('/auth/logout', ...)], index.js:153-160 *)
Definition logout : Middleware :=
  fun w st req =>
    let '(err, st', _) := logOut w st req in
    match err with
    | Some _ =>
        ([], Respond st' (res_status_json 500 (JObj [("error", JStr "Logout failed")])))
    | None => ([], Respond st' (res_redirect "/"))
    end.

(** [app.get('/', ...)], index.js:163-179 *)
Definition home (env : Env) : Middleware :=
  fun w st req =>
    let isLoggedIn := isAuthenticated req in
    sends
      (let* who := if isLoggedIn then prop User.email (user req)
                   else ret "Not logged in" in
       ret (res_send
         ([ "<h1>🚀 SiftPilot - Email Automation Platform</h1>";
            "<p>Status: " +:+ or_default (env !! "NODE_ENV") "development" +:+ "</p>";
            "<p>Database: " +:+ cond (env !! "DATABASE_URL") "Connected" "Not configured" +:+ "</p>";
            "<p>User: " +:+ who +:+ "</p>";
            "<br>" ]
          ++ (if isLoggedIn
              then [ anchor "/dashboard" "Dashboard" "<br>";
                     anchor "/auth/logout" "Logout" "<br>" ]
              else [ anchor "/auth/google" "Login with Google" "<br>" ])
          ++ [ anchor "/test" "Test API" "<br>";
               anchor "/health" "Health Check" "" ]))) w st req.

(** The registrations [app.get(path, ...)] in source order. *)
Definition routes (env : Env) (google : Registry)
    : list (string * list (string * Middleware)) :=
  [ ("/health", [("health", health env)]);
    ("/test", [("test", test env)]);
    ("/auth/google", [("auth_google", auth_google env google)]);
    ("/auth/google/callback",
       [("passport.authenticate", callback_authenticate google); ("callback", callback)]);
    ("/login-failed", [("login_failed", login_failed)]);
    ("/dashboard", [("requireAuth", requireAuth); ("dashboard", dashboard)]);
    ("/api/user", [("requireAuth", requireAuth); ("api_user", api_user)]);
    ("/auth/logout", [("logout", logout)]);
    ("/", [("home", home env)]) ].

(** The functions registered for a path; none for a path without route. *)
Fixpoint lookup_route (rs : list (string * list (string * Middleware))) (pth : string)
    : list (string * Middleware) :=
  match rs with
  | [] => []
  | (r, chain) :: rest => if String.eqb r pth then chain else lookup_route rest pth
  end.

(** The end of the line: the response that was sent; Express's own 404 if
    every function called [next()]; the error-handling middleware of
    index.js:182-185 after [next(err)]. *)
Definition finish (s : Step) : list Event * Store * Outcome :=
  match s with
  | Respond st r => ([], st, Replied r)
  | Next st _ => ([], st, Replied (mkResponse 404 (PText ["Not Found"])))
  | NextErr st e =>
      ([ConsoleError e], st,
       Replied (res_status_json 500 (JObj [("error", JStr "Internal server error")])))
  | Uncaught st e => ([], st, Unanswered e)
  end.

(** One GET request against the application. *)
Definition handle (env : Env) (google : Registry) (w : World) (st : Store)
    (h : HttpRequest) : list Event * Store * Outcome :=
  let '(st0, req) := SessionMw.load w st h in
  let '(ev, s) :=
    run (("passport.session", session_strategy deserializeUser)
           :: lookup_route (routes env google) (h_path h))
      w st0 req in
  let '(ev', st', out) := finish s in
  (ev ++ ev', SessionMw.touch w h st', out).

(** The process: it serves requests if loading the module did not throw. *)
Definition serve (env : Env) (w : World) (st : Store) (h : HttpRequest)
    : option (list Event * Store * Outcome) :=
  match startup env with
  | inr google => Some (handle env google w st h)
  | inl _ => None
  end.

(** The guard as a function of the session id a request presents, as the
    specification words it: the user of that request, if it has one. *)
Definition authorize (w : World) (st : Store) (sid : option string) : option User.t :=
  let '(st0, req) := SessionMw.load w st (mkHttp "/" (mkQuery None None None) sid) in
  match session_strategy deserializeUser w st0 req with
  | (_, Next _ req') => user req'
  | _ => None
  end.

End App.

(** ** index-basic.js *)

Module Basic.

(** [app.get('/health', ...)], index-basic.js:14-20 *)
Definition health (env : Env) : Middleware :=
  fun w =>
    sends (ret (res_json
      (JObj [ ("status", JStr "healthy");
              ("timestamp", JStr (toISOString (now w)));
              ("env", JStr (or_default (env !! "NODE_ENV") "development")) ]))) w.

(** [app.get('/test', ...)], index-basic.js:22-31 *)
Definition test (env : Env) : Middleware :=
  sends (ret (res_json
    (JObj [ ("message", JStr "SiftPilot backend is working!");
            ("database", JStr (cond (env !! "DATABASE_URL") "configured" "not configured"));
            ("oauth", JObj
               [ ("google", JStr (cond (env !! "GOOGLE_CLIENT_ID") "configured" "not configured"));
                 ("microsoft", JStr (cond (env !! "MICROSOFT_CLIENT_ID") "configured" "not configured")) ]) ]))).

(** [app.get('/', ...)], index-basic.js:33-42 *)
Definition home (env : Env) : Middleware :=
  sends (ret (res_send
    [ "<h1>🚀 SiftPilot - Email Automation Platform</h1>";
      "<p>Status: " +:+ or_default (env !! "NODE_ENV") "development" +:+ "</p>";
      "<p>Database: " +:+ cond (env !! "DATABASE_URL") "Connected" "Not configured" +:+ "</p>";
      "<br>";
      anchor "/test" "Test API" "<br>";
      anchor "/health" "Health Check" "" ])).

Definition routes (env : Env) : list (string * list (string * Middleware)) :=
  [ ("/health", [("health", health env)]);
    ("/test", [("test", test env)]);
    ("/", [("home", home env)]) ].

(** One GET request against the basic application: no session, no
    Passport, no error-handling middleware of its own. *)
Definition handle (env : Env) (w : World) (h : HttpRequest) : list Event * Outcome :=
  let req := mkReq (h_path h) (h_query h) "" (mkSession None None 0) None in
  let '(ev, s) := run (App.lookup_route (routes env) (h_path h)) w ∅ req in
  (ev,
   match s with
   | Respond _ r => Replied r
   | Next _ _ => Replied (mkResponse 404 (PText ["Not Found"]))
   | NextErr _ e => Replied (mkResponse 500 (PText ["Internal Server Error"]))
   | Uncaught _ e => Unanswered e
   end).

End Basic.

(** ** Sequences of requests and what they do to a session *)




(** The store a middleware function leaves behind. *)
Definition store_of (s : Step) : Store :=
  match s with
  | Next st _ | NextErr st _ | Respond st _ | Uncaught st _ => st
  end.



(** ** Where the users of the sessions come from *)

(** The provider vouches for the user [u]: it answers the code of the query
    with tokens and the access token with a profile, and [u] is what the
    verify callback of index.js:62-72 makes of that profile. *)
Definition provider_confirmed (w : World) (q : Query) (u : User.t) : Prop :=
  exists code accessToken refreshToken doc,
    given (q_code q) = Some code
    /\ token (provider w) code = Some (accessToken, refreshToken)
    /\ userinfo (provider w) accessToken = Some doc
    /\ App.verify accessToken refreshToken (parse doc) = Done None (Some u).

(** A function after which every session with a user either had that user
    before or is the regenerated session of a sign-in the provider vouches
    for; and which passes the query on unchanged. *)
Definition confirmed_only (m : Middleware) : Prop :=
  forall w st req,
    (forall sid s' u,
       store_of (snd (m w st req)) !! sid = Some s' -> passport_user s' = Some u ->
       (exists s, st !! sid = Some s /\ passport_user s = Some u)
       \/ (sid = regen_sid w /\ provider_confirmed w (query req) u))
    /\ forall st' req', snd (m w st req) = Next st' req' -> query req' = query req.


(** ** What the server says when it fails *)

(** A response that, if its status is 500, has one of the three error
    bodies written in index.js (lines 108, 156 and 184). *)
Definition fixed_error (r : Response) : Prop :=
  status r = 500 ->
  exists msg,
    payload r = PJson (JObj [("error", JStr msg)])
    /\ (msg = "Google OAuth not configured" \/ msg = "Logout failed"
        \/ msg = "Internal server error").

(** A function all of whose responses satisfy [P]. *)
Definition replies (P : Response -> Prop) (m : Middleware) : Prop :=
  forall w st req st' r, snd (m w st req) = Respond st' r -> P r.

(** ** A concrete scenario

    The end-to-end scenario of the specification: the provider answers the
    code [validcode] with tokens and the profile of subject 42. *)

Module Scenario.

Definition env : Env :=
  {[ "GOOGLE_CLIENT_ID" := "client-id"; "GOOGLE_CLIENT_SECRET" := "client-secret" ]}.

Definition doc : UserInfo.t :=
  UserInfo.mk "42" "A" (Some "a@x.com") true (Some "http://img").

Definition google_with (d : UserInfo.t) : Provider :=
  mkProvider
    (fun code => if String.eqb code "validcode" then Some ("access", "refresh") else None)
    (fun accessToken => if String.eqb accessToken "access" then Some d else None).

Definition world_with (d : UserInfo.t) (t : Z) : World :=
  mkWorld t "sid-1" "sid-2" "abc123" None (google_with d).

Definition world : World := world_with doc 1000.

Definition no_query : Query := mkQuery None None None.

(** The callback as the provider's redirect would produce it, with a
    given state parameter. *)
Definition callback_request (st : option string) : HttpRequest :=
  mkHttp "/auth/google/callback" (mkQuery (Some "validcode") st None) None.

Definition principal : User.t := User.mk "42" "a@x.com" "A" "google" "http://img".

End Scenario.

(** * Properties *)

Example toISOString_epoch : toISOString 0 = "1970-01-01T00:00:00.000Z".
Proof. reflexivity. Qed.

Example toISOString_2023 : toISOString 1700000000123 = "2023-11-14T22:13:20.123Z".
Proof. reflexivity. Qed.

Example toISOString_1969 : toISOString (-1) = "1969-12-31T23:59:59.999Z".
Proof. reflexivity. Qed.

Example toISOString_leap : toISOString 951782400000 = "2000-02-29T00:00:00.000Z".
Proof. reflexivity. Qed.

(** ** Start-up *)

(** Loading the module never throws: the strategy is only constructed under
    the guard of index.js:57, which makes sure that the client id is set. It
    is registered with Passport's accept-all state store and the verify
    callback of index.js:62-72. *)
Lemma startup_cases (env : Env) :
  (truthy (env !! "GOOGLE_CLIENT_ID") && truthy (env !! "GOOGLE_CLIENT_SECRET") = false
   /\ App.startup env = inr None)
  \/ (exists cid,
        truthy (env !! "GOOGLE_CLIENT_ID") && truthy (env !! "GOOGLE_CLIENT_SECRET") = true
        /\ App.startup env
           = inr (Some (mkStrategy cid "/auth/google/callback" NullStore App.verify))).
Proof.
  unfold App.startup, App.strategy_options, new_GoogleStrategy; simpl.
  destruct (env !! "GOOGLE_CLIENT_ID") as [cid|] eqn:Hid; simpl.
  - destruct (String.eqb cid "") eqn:Hc; simpl; [left; done|].
    destruct (truthy (env !! "GOOGLE_CLIENT_SECRET")); [right; eauto | left; done].
  - left; done.
Qed.

Lemma startup_total (env : Env) : exists google, App.startup env = inr google.
Proof. destruct (startup_cases env) as [[_ H]|(cid & _ & H)]; eauto. Qed.

(** ** The session middleware *)

(** What the routes see of the request: path and query as sent, and no user
    before [passport.session()] has run. *)
Lemma load_req (w : World) (st : Store) (h : HttpRequest) st0 req :
  SessionMw.load w st h = (st0, req) ->
  path req = h_path h /\ query req = h_query h /\ user req = None.
Proof.
  unfold SessionMw.load, SessionMw.get. intros H.
  destruct (h_cookie h) as [sid|]; [destruct (st !! sid) as [s|]; [destruct (Z.leb _ _)|]|];
    inversion H; subst; done.
Qed.

(** [passport.session()] with the hooks of index.js:48-54 always calls
    [next()], leaves the store alone, and sets [req.user] to the user kept in
    the session. *)
Lemma session_strategy_next (w : World) (st : Store) (req : Req) :
  user req = None ->
  exists req',
    session_strategy App.deserializeUser w st req = ([], Next st req')
    /\ user req' = passport_user (session req)
    /\ path req' = path req /\ query req' = query req
    /\ sessionID req' = sessionID req /\ session req' = session req.
Proof.
  intros Hu. unfold session_strategy, App.deserializeUser.
  destruct (passport_user (session req)) as [su|] eqn:Hs.
  - eexists; split; [reflexivity|]. simpl. done.
  - exists req. rewrite Hu. done.
Qed.

(** The session a request gets does not depend on its path or query. *)
Lemma load_cookie_only (w : World) (st : Store) (h : HttpRequest) st0 req pth q :
  SessionMw.load w st h = (st0, req) ->
  SessionMw.load w st (mkHttp pth q (h_cookie h))
  = (st0, mkReq pth q (sessionID req) (session req) None).
Proof.
  unfold SessionMw.load, SessionMw.get; simpl. intros H.
  destruct (h_cookie h) as [sid|]; [destruct (st !! sid) as [s|]; [destruct (Z.leb _ _)|]|];
    inversion H; subst; done.
Qed.

(** The guard's verdict is the user kept in the request's session. *)
Lemma authorize_load (w : World) (st : Store) (h : HttpRequest) st0 req :
  SessionMw.load w st h = (st0, req) ->
  App.authorize w st (h_cookie h) = passport_user (session req).
Proof.
  intros H. unfold App.authorize.
  rewrite (load_cookie_only _ _ _ _ _ "/" (mkQuery None None None) H).
  unfold session_strategy, App.deserializeUser; simpl.
  destruct (passport_user (session req)); done.
Qed.

(** A request runs [passport.session()], then the functions of its route on
    the request with [req.user] filled in. *)
Lemma handle_route (env : Env) (google : Registry) (w : World) (st : Store)
    (h : HttpRequest) :
  exists st0 req,
    path req = h_path h /\ query req = h_query h
    /\ user req = App.authorize w st (h_cookie h)
    /\ App.handle env google w st h
       = (let '(ev, s) := run (App.lookup_route (App.routes env google) (h_path h)) w st0 req in
          let '(ev', st', out) := App.finish s in
          (Entered "passport.session" :: ev ++ ev', SessionMw.touch w h st', out)).
Proof.
  destruct (SessionMw.load w st h) as [st0 req0] eqn:Hl.
  destruct (load_req _ _ _ _ _ Hl) as (Hp & Hq & Hu).
  destruct (session_strategy_next w st0 req0 Hu) as (req & Hs & Hu' & Hp' & Hq' & _ & _).
  exists st0, req. rewrite (authorize_load _ _ _ _ _ Hl).
  repeat split; [congruence .. |].
  unfold App.handle. rewrite Hl. cbn [run]. rewrite Hs.
  destruct (run _ w st0 req) as [ev s]. destruct (App.finish s) as [[ev' st'] out].
  reflexivity.
Qed.

(** ** The guard of the protected routes *)

(** C2. A request to a protected route ([/dashboard] or [/api/user]) that
    carries no authenticated session is answered with status 401 and the
    JSON body [{error: 'Authentication required'}]; of the route's functions
    only the guard runs, the function behind it is not entered. *)
Theorem protected_route_requires_auth (env : Env) (w : World) (st : Store)
    (pth : string) (q : Query) (ck : option string) :
  pth = "/dashboard" \/ pth = "/api/user" ->
  App.authorize w st ck = None ->
  exists st',
    App.serve env w st (mkHttp pth q ck)
    = Some ([Entered "passport.session"; Entered "requireAuth"], st',
            Replied (mkResponse 401
                       (PJson (JObj [("error", JStr "Authentication required")])))).
Proof.
  intros Hpth Hno. unfold App.serve.
  destruct (startup_total env) as [google ->].
  destruct (handle_route env google w st (mkHttp pth q ck)) as (st0 & req & _ & _ & Hu & ->).
  simpl in Hu. rewrite Hno in Hu.
  assert (Hguard : App.requireAuth w st0 req
                   = ([], Respond st0 (res_status_json 401
                            (JObj [("error", JStr "Authentication required")])))).
  { unfold App.requireAuth, isAuthenticated. by rewrite Hu. }
  destruct Hpth as [-> | ->]; cbn [h_path App.lookup_route App.routes String.eqb Ascii.eqb Bool.eqb run];
    rewrite Hguard; cbn; eauto.
Qed.

Lemma protected_route_requires_auth_witness :
  exists st',
    App.serve ∅ Scenario.world ∅ (mkHttp "/api/user" Scenario.no_query (Some "sid-9"))
    = Some ([Entered "passport.session"; Entered "requireAuth"], st',
            Replied (mkResponse 401
                       (PJson (JObj [("error", JStr "Authentication required")])))).
Proof.
  apply (protected_route_requires_auth ∅ Scenario.world ∅ "/api/user"
           Scenario.no_query (Some "sid-9")).
  - right; reflexivity.
  - vm_compute; reflexivity.
Defined.

(** ** The home page *)

(** C9. The home page answers every GET request with a page and without an
    error, logged in or not: [req.user] is only read in the branch in which
    [req.isAuthenticated()] holds. This is so for the route function on any
    request object, and for the whole request through the server. *)
Theorem home_never_faults (env : Env) (w : World) (st : Store)
    (q : Query) (ck : option string) :
  (forall req : Req,
     exists lines, App.home env w st req = ([], Respond st (res_send lines)))
  /\ exists st' lines,
       App.serve env w st (mkHttp "/" q ck)
       = Some ([Entered "passport.session"; Entered "home"], st',
               Replied (res_send lines)).
Proof.
  assert (Hhome : forall st0 (req : Req),
             exists lines, App.home env w st0 req = ([], Respond st0 (res_send lines))).
  { intros st0 req. unfold App.home, isAuthenticated.
    destruct (user req) as [u|]; cbn; eauto. }
  split; [apply Hhome|].
  unfold App.serve. destruct (startup_total env) as [google ->].
  destruct (handle_route env google w st (mkHttp "/" q ck)) as (st0 & req & _ & _ & _ & ->).
  destruct (Hhome st0 req) as [lines Hl].
  cbn [h_path App.lookup_route App.routes String.eqb Ascii.eqb Bool.eqb run].
  rewrite Hl. cbn. eauto.
Qed.

(** ** The health check *)

(** C10. For the same environment and clock the health check of the server
    with sign-in and that of the basic server are the same function, and a
    GET [/health] is answered by both servers with the same JSON object of
    [status], [timestamp] and [env], whatever session the request carries. *)
Theorem health_same_as_basic (env : Env) (w : World) (st : Store)
    (q : Query) (ck : option string) :
  let body := res_json
      (JObj [ ("status", JStr "healthy");
              ("timestamp", JStr (toISOString (now w)));
              ("env", JStr (or_default (env !! "NODE_ENV") "development")) ]) in
  App.health env = Basic.health env
  /\ Basic.handle env w (mkHttp "/health" q ck) = ([Entered "health"], Replied body)
  /\ exists st',
       App.serve env w st (mkHttp "/health" q ck)
       = Some ([Entered "passport.session"; Entered "health"], st', Replied body).
Proof.
  intros body. split; [reflexivity|]. split; [reflexivity|].
  unfold App.serve. destruct (startup_total env) as [google ->].
  destruct (handle_route env google w st (mkHttp "/health" q ck))
    as (st0 & req & _ & _ & _ & ->).
  cbn. eauto.
Qed.

(** ** Missing provider credentials *)

(** C6. When the client id is not in the environment (in particular when
    neither credential is), the process starts, with no strategy
    registered; GET [/auth/google] is answered with status 500 and the JSON
    body [{error: 'Google OAuth not configured'}]; and GET [/health] is
    served as usual. *)
Theorem unconfigured_login_fails_cleanly (env : Env) (w : World) (st : Store)
    (q : Query) (ck : option string) :
  truthy (env !! "GOOGLE_CLIENT_ID") = false ->
  App.startup env = inr None
  /\ (exists st',
        App.serve env w st (mkHttp "/auth/google" q ck)
        = Some ([Entered "passport.session"; Entered "auth_google"], st',
                Replied (mkResponse 500
                           (PJson (JObj [("error", JStr "Google OAuth not configured")])))))
  /\ (exists st',
        App.serve env w st (mkHttp "/health" q ck)
        = Some ([Entered "passport.session"; Entered "health"], st',
                Replied (res_json
                  (JObj [ ("status", JStr "healthy");
                          ("timestamp", JStr (toISOString (now w)));
                          ("env", JStr (or_default (env !! "NODE_ENV") "development")) ])))).
Proof.
  intros Hid.
  assert (Hs : App.startup env = inr None).
  { unfold App.startup. by rewrite Hid. }
  split; [exact Hs|]. unfold App.serve. rewrite Hs. split.
  - destruct (handle_route env None w st (mkHttp "/auth/google" q ck))
      as (st0 & req & _ & _ & _ & ->).
    cbn [h_path App.lookup_route App.routes String.eqb Ascii.eqb Bool.eqb run].
    unfold App.auth_google. rewrite Hid. cbn. eauto.
  - destruct (handle_route env None w st (mkHttp "/health" q ck))
      as (st0 & req & _ & _ & _ & ->).
    cbn. eauto.
Qed.

Lemma unconfigured_login_fails_cleanly_witness :
  App.startup ∅ = inr None
  /\ (exists st',
        App.serve ∅ Scenario.world ∅ (mkHttp "/auth/google" Scenario.no_query None)
        = Some ([Entered "passport.session"; Entered "auth_google"], st',
                Replied (mkResponse 500
                           (PJson (JObj [("error", JStr "Google OAuth not configured")])))))
  /\ (exists st',
        App.serve ∅ Scenario.world ∅ (mkHttp "/health" Scenario.no_query None)
        = Some ([Entered "passport.session"; Entered "health"], st',
                Replied (res_json
                  (JObj [ ("status", JStr "healthy");
                          ("timestamp", JStr "1970-01-01T00:00:01.000Z");
                          ("env", JStr "development") ])))).
Proof.
  exact (unconfigured_login_fails_cleanly ∅ Scenario.world ∅ Scenario.no_query None
           eq_refl).
Defined.

(** ** Logout *)

(** After the session middleware the session named by the cookie is either
    the request's session or not in the store. *)
Lemma load_cookie_session (w : World) (st : Store) (h : HttpRequest) st0 req sid :
  SessionMw.load w st h = (st0, req) ->
  h_cookie h = Some sid ->
  sessionID req = sid \/ st0 !! sid = None.
Proof.
  unfold SessionMw.load, SessionMw.get. intros H Hc. rewrite Hc in H.
  destruct (st !! sid) as [s|] eqn:Hs; [destruct (Z.leb _ _)|]; inversion H; subst; simpl.
  - right. apply lookup_delete_eq.
  - by left.
  - by right.
Qed.

(** Moving the expiry of the cookie's session neither adds nor removes a
    session, and keeps the user of each. *)
Lemma touch_lookup_None (w : World) (h : HttpRequest) (st : Store) (sid : string) :
  st !! sid = None -> SessionMw.touch w h st !! sid = None.
Proof.
  intros Hn. unfold SessionMw.touch. destruct (h_cookie h) as [c|]; [|done].
  rewrite lookup_alter. case_decide; subst; by rewrite Hn.
Qed.

Lemma touch_lookup_Some (w : World) (h : HttpRequest) (st : Store) (sid : string) s :
  st !! sid = Some s ->
  exists s',
    SessionMw.touch w h st !! sid = Some s'
    /\ passport_user s' = passport_user s
    /\ oauth_state s' = oauth_state s
    /\ (expires s' = expires s \/ expires s' = now w + maxAge).
Proof.
  intros Hs. unfold SessionMw.touch. destruct (h_cookie h) as [c|]; [|eauto 6].
  rewrite lookup_alter. case_decide; subst; rewrite Hs; simpl; eauto 6.
Qed.

(** A session that is in the store and has not expired authorises its user. *)
Lemma authorize_live (w : World) (st : Store) (sid : string) (s : Session) :
  st !! sid = Some s -> now w < expires s ->
  App.authorize w st (Some sid) = passport_user s.
Proof.
  intros Hs Hlt. unfold App.authorize, SessionMw.load, SessionMw.get; simpl.
  rewrite Hs. destruct (Z.leb_spec (expires s) (now w)) as [Hle|_]; [lia|].
  unfold session_strategy, App.deserializeUser; simpl.
  destruct (passport_user s); done.
Qed.

(** What GET [/auth/logout] does, for every session id: a redirect to the
    home page if the session layer reports no error, status 500 with
    [{error: 'Logout failed'}] if it reports one; in the first case the
    store has no session under the id of the cookie afterwards. *)
Lemma logout_response (env : Env) (w : World) (st : Store) (q : Query) (ck : option string) :
  exists st',
    App.serve env w st (mkHttp "/auth/logout" q ck)
    = Some ([Entered "passport.session"; Entered "logout"], st',
            Replied (match store_error w with
                     | None => res_redirect "/"
                     | Some _ =>
                         res_status_json 500 (JObj [("error", JStr "Logout failed")])
                     end))
    /\ (store_error w = None -> forall sid, ck = Some sid -> st' !! sid = None).
Proof.
  unfold App.serve. destruct (startup_total env) as [google ->].
  unfold App.handle.
  destruct (SessionMw.load w st (mkHttp "/auth/logout" q ck)) as [st0 req0] eqn:Hl.
  destruct (load_req _ _ _ _ _ Hl) as (_ & _ & Hu).
  destruct (session_strategy_next w st0 req0 Hu) as (req & Hs & _ & _ & _ & Hid & _).
  cbn [h_path App.lookup_route App.routes String.eqb Ascii.eqb Bool.eqb run].
  rewrite Hs. unfold App.logout, logOut.
  destruct (store_error w) as [e|]; cbn.
  - eexists; split; [reflexivity|]. intros; discriminate.
  - eexists; split; [reflexivity|]. intros _ sid ->.
    apply touch_lookup_None. rewrite Hid.
    destruct (load_cookie_session _ _ _ _ _ sid Hl eq_refl) as [-> | Hn].
    + by rewrite lookup_delete_eq.
    + rewrite lookup_delete. case_decide; [done|]. by rewrite Hn.
Qed.

(** C3, as the program has it. GET [/auth/logout] redirects to the home page
    for every session id, known to the store or not, whenever the session
    layer reports no error; it then leaves no session under that id, and a
    second logout with the same id is again answered with the redirect.
    When the session layer reports an error, the answer is status 500 with
    [{error: 'Logout failed'}]. *)
Theorem logout_redirects_unless_store_error (env : Env) (w w2 : World) (st : Store)
    (q q2 : Query) (ck : option string) :
  exists st',
    App.serve env w st (mkHttp "/auth/logout" q ck)
    = Some ([Entered "passport.session"; Entered "logout"], st',
            Replied (match store_error w with
                     | None => res_redirect "/"
                     | Some _ =>
                         res_status_json 500 (JObj [("error", JStr "Logout failed")])
                     end))
    /\ (store_error w = None -> forall sid, ck = Some sid -> st' !! sid = None)
    /\ (store_error w2 = None ->
        exists st'',
          App.serve env w2 st' (mkHttp "/auth/logout" q2 ck)
          = Some ([Entered "passport.session"; Entered "logout"], st'',
                  Replied (res_redirect "/"))).
Proof.
  destruct (logout_response env w st q ck) as (st' & H1 & H2).
  exists st'. split; [exact H1|]. split; [exact H2|].
  intros Hok. destruct (logout_response env w2 st' q2 ck) as (st'' & H3 & _).
  rewrite Hok in H3. eauto.
Qed.

(** C3, as the specification has it, fails: when the session store answers
    the logout of an existing session with an error, the client gets status
    500 and [{error: 'Logout failed'}], and nothing is written to the log. *)
Lemma logout_surfaces_store_error :
  let w := mkWorld 2000 "sid-3" "sid-4" "abc123" (Some (OtherError "store down"))
             (Scenario.google_with Scenario.doc) in
  let st : Store := {[ "sid-2" := mkSession (Some Scenario.principal) None 86401000 ]} in
  App.serve Scenario.env w st (mkHttp "/auth/logout" Scenario.no_query (Some "sid-2"))
  = Some ([Entered "passport.session"; Entered "logout"],
          <[ "sid-2" := mkSession (Some Scenario.principal) None 86402000 ]> st,
          Replied (mkResponse 500 (PJson (JObj [("error", JStr "Logout failed")])))).
Proof. vm_compute. reflexivity. Qed.

(** ** The anti-forgery state of the callback *)

(** C1, as the program has it. The strategy is constructed without a
    [state] option (index.js:58-62), so nothing about a sign-in is
    remembered and the callback compares its state parameter with nothing:
    the provider calls made, the resulting store and the response of GET
    [/auth/google/callback] are the same whatever state the request
    carries. *)
Theorem callback_ignores_state (env : Env) (w : World) (st : Store)
    (code s1 s2 err : option string) (ck : option string) :
  App.serve env w st (mkHttp "/auth/google/callback" (mkQuery code s1 err) ck)
  = App.serve env w st (mkHttp "/auth/google/callback" (mkQuery code s2 err) ck).
Proof.
  unfold App.serve.
  destruct (startup_cases env) as [[_ ->]|(cid & _ & ->)]; f_equal; unfold App.handle.
  all: destruct (SessionMw.load w st (mkHttp "" (mkQuery None None None) ck))
         as [st0 r0] eqn:Hl.
  all: pose proof (load_cookie_only _ _ _ _ _ "/auth/google/callback"
                     (mkQuery code s1 err) Hl) as H1.
  all: pose proof (load_cookie_only _ _ _ _ _ "/auth/google/callback"
                     (mkQuery code s2 err) Hl) as H2.
  all: simpl in H1, H2; rewrite H1, H2; clear H1 H2.
  all: cbn [h_path App.lookup_route App.routes String.eqb Ascii.eqb Bool.eqb run].
  all: unfold session_strategy, App.deserializeUser; simpl.
  all: destruct (passport_user (session r0)) as [su|]; simpl.
  all: unfold App.callback_authenticate, authenticate, complete; simpl; try reflexivity.
  all: destruct (given err) as [e|]; [destruct (String.eqb e "access_denied"); reflexivity|].
  all: destruct (given code) as [c|]; [|reflexivity].
  all: destruct (token (provider w) c) as [[accessToken refreshToken]|]; [|reflexivity].
  all: destruct (userinfo (provider w) accessToken) as [doc|]; [|reflexivity].
  all: destruct (App.verify accessToken refreshToken (parse doc)) as [[e|] [u|]|e];
         try reflexivity.
  all: unfold logIn, App.serializeUser; destruct (store_error w); reflexivity.
Qed.

(** C1, as the specification has it, fails. The redirect that starts the
    sign-in carries no state and stores nothing; a callback with a state
    that was never issued has its code exchanged with the provider and ends
    in a logged-in session. *)
Lemma forged_state_is_accepted :
  App.serve Scenario.env Scenario.world ∅ (mkHttp "/auth/google" Scenario.no_query None)
  = Some ([Entered "passport.session"; Entered "auth_google"], ∅,
          Replied (mkResponse 302
                     (PAuthorize (mkAuthz ["profile"; "email"] "/auth/google/callback"
                                    "client-id" None))))
  /\ App.serve Scenario.env Scenario.world ∅ (Scenario.callback_request (Some "forged"))
     = Some ([ Entered "passport.session"; Entered "passport.authenticate";
               TokenRequest "validcode"; ProfileRequest "access"; Entered "callback" ],
             {[ "sid-2" := mkSession (Some Scenario.principal) None 86401000 ]},
             Replied (res_redirect "/dashboard")).
Proof. split; vm_compute; reflexivity. Qed.

Example session_state_store_would_reject :
  let strategy := mkStrategy "client-id" "/auth/google/callback" SessionStore App.verify in
  let st : Store := {[ "sid-1" := mkSession None (Some "abc123") 86401000 ]} in
  App.handle Scenario.env (Some strategy) Scenario.world st
    (mkHttp "/auth/google/callback" (mkQuery (Some "validcode") (Some "forged") None)
       (Some "sid-1"))
  = ([Entered "passport.session"; Entered "passport.authenticate"],
     {[ "sid-1" := mkSession None None 86401000 ]},
     Replied (res_redirect "/login-failed")).
Proof. vm_compute. reflexivity. Qed.

(** ** From the provider's profile to the user of the session *)

(** The object literal of index.js:64-70 on a profile that has a first email
    and a first photo. *)
Lemma build_user_first (profile : Profile.t) e es ph phs :
  Profile.emails profile = Some (e :: es) ->
  Profile.photos profile = Some (ph :: phs) ->
  App.build_user profile
  = inr (User.mk (Profile.id profile) (EmailEntry.value e)
           (Profile.displayName profile) "google" (PhotoEntry.value ph)).
Proof. intros He Hp. unfold App.build_user. rewrite He, Hp. reflexivity. Qed.

(** C4, as the program has it. For a profile with at least one email entry
    and at least one photo entry the verify callback hands Passport a user
    whose email is the value of the first email entry, whether that entry
    is marked verified or not. *)
Theorem verify_takes_first_email (accessToken refreshToken : string)
    (profile : Profile.t) e es ph phs :
  Profile.emails profile = Some (e :: es) ->
  Profile.photos profile = Some (ph :: phs) ->
  App.verify accessToken refreshToken profile
  = Done None (Some (User.mk (Profile.id profile) (EmailEntry.value e)
                       (Profile.displayName profile) "google" (PhotoEntry.value ph))).
Proof.
  intros He Hp. unfold App.verify. by rewrite (build_user_first _ _ _ _ _ He Hp).
Qed.

Lemma verify_takes_first_email_witness :
  App.verify "access" "refresh"
    (Profile.mk "42" "A"
       (Some [EmailEntry.mk "first@x.com" false; EmailEntry.mk "second@x.com" true])
       (Some [PhotoEntry.mk "http://img"]))
  = Done None (Some (User.mk "42" "first@x.com" "A" "google" "http://img")).
Proof.
  apply (verify_takes_first_email "access" "refresh"
           (Profile.mk "42" "A"
              (Some [EmailEntry.mk "first@x.com" false; EmailEntry.mk "second@x.com" true])
              (Some [PhotoEntry.mk "http://img"]))
           (EmailEntry.mk "first@x.com" false) [EmailEntry.mk "second@x.com" true]
           (PhotoEntry.mk "http://img") []); reflexivity.
Defined.

(** C4, as the specification has it, fails. A provider profile whose only
    email is not verified signs the user in, with that email; and where a
    verified entry follows an unverified one, the user gets the unverified
    first one. *)
Lemma unverified_email_is_accepted :
  let doc := UserInfo.mk "42" "A" (Some "a@x.com") false (Some "http://img") in
  Profile.emails (parse doc) = Some [EmailEntry.mk "a@x.com" false]
  /\ App.serve Scenario.env (Scenario.world_with doc 1000) ∅
       (Scenario.callback_request None)
     = Some ([ Entered "passport.session"; Entered "passport.authenticate";
               TokenRequest "validcode"; ProfileRequest "access"; Entered "callback" ],
             {[ "sid-2" := mkSession (Some Scenario.principal) None 86401000 ]},
             Replied (res_redirect "/dashboard"))
  /\ App.verify "access" "refresh"
       (Profile.mk "42" "A"
          (Some [EmailEntry.mk "first@x.com" false; EmailEntry.mk "second@x.com" true])
          (Some [PhotoEntry.mk "http://img"]))
     = Done None (Some (User.mk "42" "first@x.com" "A" "google" "http://img")).
Proof. repeat split; vm_compute; reflexivity. Qed.

(** C7 at its failing inputs. A profile without photos, whether the array is
    missing or empty, makes the verify callback throw a [TypeError] while it
    builds the user; the callback is [async], so [done] is never called,
    and the sign-in request is left without a response although the code
    was exchanged and the profile fetched. *)
Lemma login_without_photo_is_unanswered :
  let doc := UserInfo.mk "42" "A" (Some "a@x.com") true None in
  Profile.photos (parse doc) = None
  /\ App.verify "access" "refresh" (parse doc)
     = Rejected (TypeError "Cannot read properties of undefined")
  /\ App.verify "access" "refresh"
       (Profile.mk "42" "A" (Some [EmailEntry.mk "a@x.com" true]) (Some []))
     = Rejected (TypeError "Cannot read properties of undefined")
  /\ App.serve Scenario.env (Scenario.world_with doc 1000) ∅
       (Scenario.callback_request None)
     = Some ([ Entered "passport.session"; Entered "passport.authenticate";
               TokenRequest "validcode"; ProfileRequest "access" ],
             ∅,
             Unanswered (TypeError "Cannot read properties of undefined")).
Proof. repeat split; vm_compute; reflexivity. Qed.

(** ** What the routes do to the session store *)















(** Proves a property of every function of a chain with [tac]. *)
Ltac each_of_chain tac :=
  repeat (apply List.Forall_cons; [simpl; tac|]); apply List.Forall_nil.








(** ** A completed sign-in *)

(** The callback of a sign-in that the provider confirms: the code is
    exchanged, the profile fetched, the user built from it is put in a new
    session under the regenerated id, and the client is sent to the
    dashboard. *)
Lemma callback_login (env : Env) (w : World) (st : Store) (qs ck : option string)
    (code accessToken refreshToken : string) (doc : UserInfo.t) (e pic : string) :
  truthy (env !! "GOOGLE_CLIENT_ID") = true ->
  truthy (env !! "GOOGLE_CLIENT_SECRET") = true ->
  code <> "" ->
  token (provider w) code = Some (accessToken, refreshToken) ->
  userinfo (provider w) accessToken = Some doc ->
  UserInfo.email doc = Some e -> e <> "" ->
  UserInfo.picture doc = Some pic -> pic <> "" ->
  store_error w = None ->
  exists st1,
    App.serve env w st (mkHttp "/auth/google/callback" (mkQuery (Some code) qs None) ck)
    = Some ([ Entered "passport.session"; Entered "passport.authenticate";
              TokenRequest code; ProfileRequest accessToken; Entered "callback" ],
            st1, Replied (res_redirect "/dashboard"))
    /\ st1 !! regen_sid w
       = Some (mkSession
                 (Some (User.mk (UserInfo.sub doc) e (UserInfo.name doc) "google" pic))
                 None (now w + maxAge)).
Proof.
  intros Hid Hsec Hcode Htok Hinfo He Hene Hp Hpne Hstore.
  unfold App.serve.
  destruct (startup_cases env) as [[Hoff _]|(cid & _ & ->)];
    [rewrite Hid, Hsec in Hoff; discriminate|].
  unfold App.handle.
  destruct (SessionMw.load w st _) as [st0 req0] eqn:Hl.
  destruct (load_req _ _ _ _ _ Hl) as (_ & Hq0 & Hu).
  destruct (session_strategy_next w st0 req0 Hu) as (req & Hs & _ & _ & Hq & _ & _).
  simpl in Hq0. rewrite Hq0 in Hq.
  cbn [h_path App.lookup_route App.routes String.eqb Ascii.eqb Bool.eqb run].
  rewrite Hs.
  assert (Hgiven : given (Some code) = Some code).
  { unfold given. by destruct (String.eqb_spec code ""). }
  assert (Hprofile : App.verify accessToken refreshToken (parse doc)
                     = Done None (Some (User.mk (UserInfo.sub doc) e (UserInfo.name doc)
                                          "google" pic))).
  { unfold App.verify.
    rewrite (build_user_first (parse doc) (EmailEntry.mk e (UserInfo.email_verified doc)) []
               (PhotoEntry.mk pic) []); [done| |]; unfold parse; simpl.
    - rewrite He. by destruct (String.eqb_spec e "").
    - rewrite Hp. by destruct (String.eqb_spec pic ""). }
  unfold App.callback_authenticate, authenticate, complete, state_verify, logIn,
    App.serializeUser.
  rewrite Hq. cbn -[App.verify parse given SessionMw.touch].
  rewrite Hgiven, Htok, Hinfo, Hprofile, Hstore.
  cbn -[SessionMw.touch].
  eexists; split; [reflexivity|].
  edestruct (touch_lookup_Some w (mkHttp "/auth/google/callback" (mkQuery (Some code) qs None) ck))
    as (s' & Hs' & Hu' & Ho' & He'); [apply lookup_insert_eq|].
  rewrite Hs'. destruct s' as [pu os ex]; simpl in *. subst pu os.
  destruct He' as [->| ->]; reflexivity.
Qed.

(** An authenticated GET [/api/user] passes the guard and is answered with
    the five fields of the session's user. *)
Lemma api_user_authenticated (env : Env) (w : World) (st : Store) (q : Query)
    (ck : option string) (u : User.t) :
  App.authorize w st ck = Some u ->
  exists st',
    App.serve env w st (mkHttp "/api/user" q ck)
    = Some ([Entered "passport.session"; Entered "requireAuth"; Entered "api_user"], st',
            Replied (res_json
              (JObj [ ("id", JStr (User.id u)); ("email", JStr (User.email u));
                      ("name", JStr (User.name u)); ("provider", JStr (User.provider u));
                      ("avatarUrl", JStr (User.avatarUrl u)) ]))).
Proof.
  intros Hau. unfold App.serve. destruct (startup_total env) as [google ->].
  destruct (handle_route env google w st (mkHttp "/api/user" q ck))
    as (st0 & req & _ & _ & Hu & ->).
  simpl in Hu. rewrite Hau in Hu.
  cbn [h_path App.lookup_route App.routes String.eqb Ascii.eqb Bool.eqb run].
  unfold App.requireAuth, isAuthenticated, App.api_user.
  rewrite Hu. cbn -[SessionMw.touch]. rewrite Hu. cbn -[SessionMw.touch]. eauto.
Qed.

(** C5. When the provider confirms a sign-in with the profile
    [{sub, email, name, picture}], the callback puts the user
    [{id: sub, email, name, provider: 'google', avatarUrl: picture}] in the
    new session, and a later GET [/api/user] with that session, before it
    expires, is answered with exactly the JSON object
    [{id, email, name, provider, avatarUrl}] of those values. *)
Theorem login_principal_and_api_user (env : Env) (w w' : World) (st : Store)
    (qs ck : option string) (q' : Query)
    (code accessToken refreshToken : string) (doc : UserInfo.t) (e pic : string) :
  truthy (env !! "GOOGLE_CLIENT_ID") = true ->
  truthy (env !! "GOOGLE_CLIENT_SECRET") = true ->
  code <> "" ->
  token (provider w) code = Some (accessToken, refreshToken) ->
  userinfo (provider w) accessToken = Some doc ->
  UserInfo.email doc = Some e -> e <> "" ->
  UserInfo.picture doc = Some pic -> pic <> "" ->
  store_error w = None ->
  now w' < now w + maxAge ->
  exists st1 st2,
    App.serve env w st (mkHttp "/auth/google/callback" (mkQuery (Some code) qs None) ck)
    = Some ([ Entered "passport.session"; Entered "passport.authenticate";
              TokenRequest code; ProfileRequest accessToken; Entered "callback" ],
            st1, Replied (res_redirect "/dashboard"))
    /\ st1 !! regen_sid w
       = Some (mkSession
                 (Some (User.mk (UserInfo.sub doc) e (UserInfo.name doc) "google" pic))
                 None (now w + maxAge))
    /\ App.serve env w' st1 (mkHttp "/api/user" q' (Some (regen_sid w)))
       = Some ([Entered "passport.session"; Entered "requireAuth"; Entered "api_user"], st2,
               Replied (res_json
                 (JObj [ ("id", JStr (UserInfo.sub doc)); ("email", JStr e);
                         ("name", JStr (UserInfo.name doc)); ("provider", JStr "google");
                         ("avatarUrl", JStr pic) ]))).
Proof.
  intros Hid Hsec Hcode Htok Hinfo He Hene Hp Hpne Hstore Hlt.
  destruct (callback_login env w st qs ck code accessToken refreshToken doc e pic)
    as (st1 & Hcb & Hsess); try done.
  destruct (api_user_authenticated env w' st1 q' (Some (regen_sid w))
              (User.mk (UserInfo.sub doc) e (UserInfo.name doc) "google" pic))
    as (st2 & Hapi).
  { by rewrite (authorize_live _ _ _ _ Hsess). }
  exists st1, st2. done.
Qed.

Lemma login_principal_and_api_user_witness :
  exists st1 st2,
    App.serve Scenario.env Scenario.world ∅ (Scenario.callback_request (Some "abc123"))
    = Some ([ Entered "passport.session"; Entered "passport.authenticate";
              TokenRequest "validcode"; ProfileRequest "access"; Entered "callback" ],
            st1, Replied (res_redirect "/dashboard"))
    /\ st1 !! "sid-2" = Some (mkSession (Some Scenario.principal) None 86401000)
    /\ App.serve Scenario.env (Scenario.world_with Scenario.doc 5000) st1
         (mkHttp "/api/user" Scenario.no_query (Some "sid-2"))
       = Some ([Entered "passport.session"; Entered "requireAuth"; Entered "api_user"], st2,
               Replied (res_json
                 (JObj [ ("id", JStr "42"); ("email", JStr "a@x.com");
                         ("name", JStr "A"); ("provider", JStr "google");
                         ("avatarUrl", JStr "http://img") ]))).
Proof.
  apply (login_principal_and_api_user Scenario.env Scenario.world
           (Scenario.world_with Scenario.doc 5000) ∅ (Some "abc123") None
           Scenario.no_query "validcode" "access" "refresh" Scenario.doc
           "a@x.com" "http://img");
    try reflexivity; discriminate.
Defined.

(** ** The session after a sign-in *)


(** Once a session is logged out, its id authorises nobody. *)
Lemma authorize_after_logout (env : Env) (w w' : World) (st : Store) (q : Query)
    (sid : string) ev st' out :
  store_error w = None ->
  App.serve env w st (mkHttp "/auth/logout" q (Some sid)) = Some (ev, st', out) ->
  App.authorize w' st' (Some sid) = None.
Proof.
  intros Hok Hs.
  destruct (logout_response env w st q (Some sid)) as (st1 & H1 & H2).
  rewrite Hs in H1. inversion H1; subst st1.
  unfold App.authorize, SessionMw.load, SessionMw.get; simpl.
  by rewrite (H2 Hok sid eq_refl).
Qed.



(** With the client id set and the secret missing, no strategy is
    registered, the guard of the login route (which looks at the client id
    only) lets the request through, and the request ends in the
    error-handling middleware. *)
Example login_with_secret_missing :
  let env : Env := {[ "GOOGLE_CLIENT_ID" := "client-id" ]} in
  App.startup env = inr None
  /\ App.serve env Scenario.world ∅ (mkHttp "/auth/google" Scenario.no_query None)
     = Some ([ Entered "passport.session"; Entered "auth_google";
               ConsoleError (TypeError "next is not a function") ],
             ∅,
             Replied (mkResponse 500 (PJson (JObj [("error", JStr "Internal server error")])))).
Proof. split; vm_compute; reflexivity. Qed.

(** * Further properties of the program *)

(** ** Start-up and the login route *)


(** The registry of a configured environment. *)
Lemma startup_configured (env : Env) (cid : string) :
  env !! "GOOGLE_CLIENT_ID" = Some cid -> cid <> "" ->
  truthy (env !! "GOOGLE_CLIENT_SECRET") = true ->
  App.startup env
  = inr (Some (mkStrategy cid "/auth/google/callback" NullStore App.verify)).
Proof.
  intros Hid Hne Hsec.
  unfold App.startup, App.strategy_options, new_GoogleStrategy; simpl.
  rewrite Hid, Hsec; simpl. by destruct (String.eqb_spec cid "").
Qed.

(** The guard of a protected route turns away a request without user. *)
Lemma guard_rejects (env : Env) (w : World) (st : Store)
    (pth : string) (q : Query) (ck : option string) :
  pth = "/dashboard" \/ pth = "/api/user" ->
  App.authorize w st ck = None ->
  exists st',
    App.serve env w st (mkHttp pth q ck)
    = Some ([Entered "passport.session"; Entered "requireAuth"], st',
            Replied (res_status_json 401 (JObj [("error", JStr "Authentication required")]))).
Proof.
  intros Hpth Hno. unfold App.serve.
  destruct (startup_total env) as [google ->].
  destruct (handle_route env google w st (mkHttp pth q ck)) as (st0 & req & _ & _ & Hu & ->).
  simpl in Hu. rewrite Hno in Hu.
  destruct Hpth as [-> | ->];
    cbn [h_path App.lookup_route App.routes String.eqb Ascii.eqb Bool.eqb run];
    unfold App.requireAuth, isAuthenticated; rewrite Hu; cbn -[SessionMw.touch]; eauto.
Qed.

(** The page of the dashboard for the user [u]. *)
Lemma dashboard_authenticated (env : Env) (w : World) (st : Store) (q : Query)
    (ck : option string) (u : User.t) :
  App.authorize w st ck = Some u ->
  exists st',
    App.serve env w st (mkHttp "/dashboard" q ck)
    = Some ([Entered "passport.session"; Entered "requireAuth"; Entered "dashboard"], st',
            Replied (res_send
              [ "<h1>✅ Welcome " +:+ User.name u +:+ "!</h1>";
                "<p>Email: " +:+ User.email u +:+ "</p>";
                "<p>Provider: " +:+ User.provider u +:+ "</p>";
                "<img src=" +:+ dq +:+ User.avatarUrl u +:+ dq +:+ " width=" +:+ dq
                  +:+ "50" +:+ dq +:+ " height=" +:+ dq +:+ "50" +:+ dq +:+ ">";
                "<br><br>";
                anchor "/api/user" "View User API" "<br>";
                anchor "/auth/logout" "Logout" "<br>";
                anchor "/" "Home" "" ])).
Proof.
  intros Hau. unfold App.serve. destruct (startup_total env) as [google ->].
  destruct (handle_route env google w st (mkHttp "/dashboard" q ck))
    as (st0 & req & _ & _ & Hu & ->).
  simpl in Hu. rewrite Hau in Hu.
  cbn [h_path App.lookup_route App.routes String.eqb Ascii.eqb Bool.eqb run].
  unfold App.requireAuth, isAuthenticated, App.dashboard.
  rewrite Hu. cbn -[SessionMw.touch String.append anchor dq]. rewrite Hu.
  cbn -[SessionMw.touch String.append anchor dq]. eauto.
Qed.



(** ** The protected routes *)

(** X3. What the two protected routes answer is decided by the guard's
    verdict alone. Without a user both are answered 401 by the guard and
    their own functions do not run. With the user [u] of the session both
    run: the dashboard is the page with [u]'s name, email, provider and
    avatar, [/api/user] the JSON object of [u]'s five fields. Neither route
    ever ends in the error-handling middleware. *)
Theorem protected_routes_serve_session_user (env : Env) (w : World) (st : Store)
    (q : Query) (ck : option string) :
  match App.authorize w st ck with
  | None =>
      (exists st',
         App.serve env w st (mkHttp "/dashboard" q ck)
         = Some ([Entered "passport.session"; Entered "requireAuth"], st',
                 Replied (res_status_json 401
                            (JObj [("error", JStr "Authentication required")]))))
      /\ (exists st',
            App.serve env w st (mkHttp "/api/user" q ck)
            = Some ([Entered "passport.session"; Entered "requireAuth"], st',
                    Replied (res_status_json 401
                               (JObj [("error", JStr "Authentication required")]))))
  | Some u =>
      (exists st',
         App.serve env w st (mkHttp "/dashboard" q ck)
         = Some ([Entered "passport.session"; Entered "requireAuth"; Entered "dashboard"],
                 st',
                 Replied (res_send
                   [ "<h1>✅ Welcome " +:+ User.name u +:+ "!</h1>";
                     "<p>Email: " +:+ User.email u +:+ "</p>";
                     "<p>Provider: " +:+ User.provider u +:+ "</p>";
                     "<img src=" +:+ dq +:+ User.avatarUrl u +:+ dq +:+ " width=" +:+ dq
                       +:+ "50" +:+ dq +:+ " height=" +:+ dq +:+ "50" +:+ dq +:+ ">";
                     "<br><br>";
                     anchor "/api/user" "View User API" "<br>";
                     anchor "/auth/logout" "Logout" "<br>";
                     anchor "/" "Home" "" ])))
      /\ (exists st',
            App.serve env w st (mkHttp "/api/user" q ck)
            = Some ([Entered "passport.session"; Entered "requireAuth"; Entered "api_user"],
                    st',
                    Replied (res_json
                      (JObj [ ("id", JStr (User.id u)); ("email", JStr (User.email u));
                              ("name", JStr (User.name u));
                              ("provider", JStr (User.provider u));
                              ("avatarUrl", JStr (User.avatarUrl u)) ]))))
  end.
Proof.
  destruct (App.authorize w st ck) as [u|] eqn:Hau.
  - split; [by apply dashboard_authenticated | by apply api_user_authenticated].
  - split; apply guard_rejects; auto.
Qed.

(** ** The test endpoint *)

(** X4. GET [/test] never faults, logged in or not. The server with sign-in
    answers with the object of the basic server (message, database and
    OAuth configuration as read from the environment) extended by two
    fields: [session], always [active], and [user], the email of the
    session's user or [not logged in]. *)
Theorem test_extends_basic (env : Env) (w : World) (st : Store)
    (q : Query) (ck : option string) :
  let base :=
    [ ("message", JStr "SiftPilot backend is working!");
      ("database", JStr (cond (env !! "DATABASE_URL") "configured" "not configured"));
      ("oauth", JObj
         [ ("google", JStr (cond (env !! "GOOGLE_CLIENT_ID") "configured" "not configured"));
           ("microsoft",
            JStr (cond (env !! "MICROSOFT_CLIENT_ID") "configured" "not configured")) ]) ] in
  Basic.handle env w (mkHttp "/test" q ck) = ([Entered "test"], Replied (res_json (JObj base)))
  /\ exists st',
       App.serve env w st (mkHttp "/test" q ck)
       = Some ([Entered "passport.session"; Entered "test"], st',
               Replied (res_json (JObj
                 (base ++ [ ("session", JStr "active");
                            ("user", JStr (match App.authorize w st ck with
                                           | Some u => User.email u
                                           | None => "not logged in"
                                           end)) ])))).
Proof.
  intros base. split; [reflexivity|].
  unfold App.serve. destruct (startup_total env) as [google ->].
  destruct (handle_route env google w st (mkHttp "/test" q ck))
    as (st0 & req & _ & _ & Hu & ->).
  simpl in Hu.
  cbn [h_path App.lookup_route App.routes String.eqb Ascii.eqb Bool.eqb run].
  unfold App.test. rewrite Hu.
  destruct (App.authorize w st ck) as [u|]; cbn -[SessionMw.touch cond]; eauto.
Qed.

(** ** The home page *)

(** The lines of the home page, as a function of the session's user. *)
Lemma home_page (env : Env) (w : World) (st : Store) (q : Query) (ck : option string) :
  exists st',
    App.serve env w st (mkHttp "/" q ck)
    = Some ([Entered "passport.session"; Entered "home"], st',
            Replied (res_send
              ([ "<h1>🚀 SiftPilot - Email Automation Platform</h1>";
                 "<p>Status: " +:+ or_default (env !! "NODE_ENV") "development" +:+ "</p>";
                 "<p>Database: "
                   +:+ cond (env !! "DATABASE_URL") "Connected" "Not configured" +:+ "</p>";
                 "<p>User: " +:+ match App.authorize w st ck with
                                 | Some u => User.email u
                                 | None => "Not logged in"
                                 end +:+ "</p>";
                 "<br>" ]
               ++ match App.authorize w st ck with
                  | Some _ => [ anchor "/dashboard" "Dashboard" "<br>";
                                anchor "/auth/logout" "Logout" "<br>" ]
                  | None => [ anchor "/auth/google" "Login with Google" "<br>" ]
                  end
               ++ [ anchor "/test" "Test API" "<br>";
                    anchor "/health" "Health Check" "" ]))).
Proof.
  unfold App.serve. destruct (startup_total env) as [google ->].
  destruct (handle_route env google w st (mkHttp "/" q ck))
    as (st0 & req & _ & _ & Hu & ->).
  simpl in Hu.
  cbn [h_path App.lookup_route App.routes String.eqb Ascii.eqb Bool.eqb run].
  unfold App.home, isAuthenticated. rewrite Hu.
  destruct (App.authorize w st ck) as [u|];
    cbn -[SessionMw.touch String.append anchor cond or_default]; eauto.
Qed.

(** X5. The home page offers the links that fit the session: the link to
    sign in with Google is on the page exactly when the request has no
    user, the links to the dashboard and to logout exactly when it has one;
    the links to the test endpoint and the health check are always there. *)
Theorem home_links_follow_session (env : Env) (w : World) (st : Store)
    (q : Query) (ck : option string) :
  exists st' lines,
    App.serve env w st (mkHttp "/" q ck)
    = Some ([Entered "passport.session"; Entered "home"], st', Replied (res_send lines))
    /\ (In (anchor "/auth/google" "Login with Google" "<br>") lines
        <-> App.authorize w st ck = None)
    /\ (In (anchor "/dashboard" "Dashboard" "<br>") lines
        <-> is_Some (App.authorize w st ck))
    /\ (In (anchor "/auth/logout" "Logout" "<br>") lines
        <-> is_Some (App.authorize w st ck))
    /\ In (anchor "/test" "Test API" "<br>") lines
    /\ In (anchor "/health" "Health Check" "") lines.
Proof.
  destruct (home_page env w st q ck) as [st' Hpage].
  eexists st', _. split; [exact Hpage|].
  destruct (App.authorize w st ck) as [u|]; cbn [app In].
  all: repeat split; intros; eauto 12.
  all: repeat match goal with
              | H : _ \/ _ |- _ => destruct H
              | H : False |- _ => destruct H
              | H : is_Some None |- _ => destruct H; discriminate
              | H : Some _ = None |- _ => discriminate H
              | H : _ = anchor _ _ _ |- _ =>
                  exfalso; unfold anchor, dq in H; cbn [String.append] in H;
                  discriminate H
              end.
Qed.

(** ** The basic server *)

(** X6. The basic server keeps nothing between requests and looks at
    nothing of a request but its path: with the same environment and the
    same clock, two requests for the same path get the same answer,
    whatever their cookies and query parameters and whatever else differs
    in the world around them. *)
Theorem basic_looks_at_path_only (env : Env) (t : Z) (pth : string)
    (q q' : Query) (ck ck' : option string)
    (f f' r r' s s' : string) (e e' : option Error) (pr pr' : Provider) :
  Basic.handle env (mkWorld t f r s e pr) (mkHttp pth q ck)
  = Basic.handle env (mkWorld t f' r' s' e' pr') (mkHttp pth q' ck').
Proof.
  unfold Basic.handle. cbn [h_path h_query App.lookup_route Basic.routes].
  repeat match goal with
         | |- context [String.eqb ?a pth] => destruct (String.eqb a pth)
         end; reflexivity.
Qed.

(** X7. The home page of the server with sign-in contains the home page of
    the basic server: every line of the basic page is on it, in the same
    order. What is added is the line naming the user and the links that
    depend on the session. *)
Theorem home_contains_basic_home (env : Env) (w : World) (st : Store)
    (q : Query) (ck : option string) :
  exists basic_lines st' lines,
    Basic.handle env w (mkHttp "/" q ck)
    = ([Entered "home"], Replied (res_send basic_lines))
    /\ App.serve env w st (mkHttp "/" q ck)
       = Some ([Entered "passport.session"; Entered "home"], st', Replied (res_send lines))
    /\ sublist basic_lines lines
    /\ length lines
       = (length basic_lines
          + match App.authorize w st ck with Some _ => 3 | None => 2 end)%nat.
Proof.
  destruct (home_page env w st q ck) as [st' Hpage].
  eexists _, st', _. split; [reflexivity|]. split; [exact Hpage|].
  destruct (App.authorize w st ck) as [u|]; cbn [app]; split; try reflexivity.
  - do 3 apply sublist_skip. apply sublist_cons. apply sublist_skip.
    do 2 apply sublist_cons. do 2 apply sublist_skip. apply sublist_nil.
  - do 3 apply sublist_skip. apply sublist_cons. apply sublist_skip.
    apply sublist_cons. do 2 apply sublist_skip. apply sublist_nil.
Qed.

(** ** Where the users of the sessions come from *)

Lemma confirmed_sends (r : Result Response) : confirmed_only (sends r).
Proof.
  intros w st req. unfold sends. destruct r; simpl; split; try done; eauto.
Qed.

Lemma confirmed_requireAuth : confirmed_only App.requireAuth.
Proof.
  intros w st req. unfold App.requireAuth. destruct (isAuthenticated req); simpl; split;
    eauto; try done.
  intros st' req' H; by inversion H.
Qed.

Lemma confirmed_session_strategy :
  confirmed_only (session_strategy App.deserializeUser).
Proof.
  intros w st req. unfold session_strategy, App.deserializeUser.
  destruct (passport_user (session req)); simpl; split; eauto.
  all: intros st' req' H; by inversion H.
Qed.

Lemma confirmed_logout : confirmed_only App.logout.
Proof.
  intros w st req. unfold App.logout, logOut.
  destruct (store_error w); simpl; split; eauto; try done.
  intros sid s' u Hl Hu. apply lookup_delete_Some in Hl as [_ Hl]. eauto.
Qed.

(** The strategies that start-up can register: none, or the Google strategy
    with the accept-all state store and the verify callback of index.js. *)
Lemma confirmed_authenticate (google : Registry) (o : AuthOptions) (has_next : bool) :
  (forall s, google = Some s -> stateStore s = NullStore /\ s_verify s = App.verify) ->
  confirmed_only (authenticate App.serializeUser google o has_next).
Proof.
  intros Hg w st req.
  unfold authenticate. destruct google as [s|]; [destruct (Hg s eq_refl) as [Hnull Hver]|].
  2: { unfold call_next. destruct has_next; simpl; split; eauto; done. }
  unfold complete, begin, state_verify, logIn, call_next, fail, App.serializeUser, ret, throw.
  rewrite Hnull, Hver.
  destruct (given (q_error (query req))) as [e|] eqn:He.
  { repeat case_match; simpl; split; eauto; done. }
  destruct (given (q_code (query req))) as [code|] eqn:Hc; [|simpl; split; eauto; done].
  simpl.
  destruct (token (provider w) code) as [[accessToken refreshToken]|] eqn:Htok.
  2: { repeat case_match; simpl; split; eauto; done. }
  destruct (userinfo (provider w) accessToken) as [doc|] eqn:Hinfo.
  2: { repeat case_match; simpl; split; eauto; done. }
  destruct (App.verify accessToken refreshToken (parse doc)) as [[e|] [u|]|e] eqn:Hv.
  1,2,4,5: repeat case_match; simpl; split; eauto; done.
  destruct (store_error w) eqn:Hst.
  { repeat case_match; simpl; split; eauto; done. }
  destruct has_next; simpl; split; try done.
  - intros sid s' u' Hl Hu.
    destruct (decide (sid = regen_sid w)) as [->|Hne].
    + rewrite lookup_insert_eq in Hl. inversion Hl; subst s'. simpl in Hu.
      inversion Hu; subst u'. right. split; [done|].
      exists code, accessToken, refreshToken, doc. done.
    + rewrite lookup_insert_ne in Hl by done.
      apply lookup_delete_Some in Hl as [_ Hl]. eauto.
  - intros st' req' H. by inversion H.
  - intros sid s' u' Hl Hu.
    destruct (decide (sid = regen_sid w)) as [->|Hne].
    + rewrite lookup_insert_eq in Hl. inversion Hl; subst s'. simpl in Hu.
      inversion Hu; subst u'. right. split; [done|].
      exists code, accessToken, refreshToken, doc. done.
    + rewrite lookup_insert_ne in Hl by done.
      apply lookup_delete_Some in Hl as [_ Hl]. eauto.
Qed.

Lemma confirmed_auth_google (env : Env) (google : Registry) :
  (forall s, google = Some s -> stateStore s = NullStore /\ s_verify s = App.verify) ->
  confirmed_only (App.auth_google env google).
Proof.
  intros Hg w st req. unfold App.auth_google.
  destruct (negb _); [simpl; split; eauto; done|].
  by apply confirmed_authenticate.
Qed.

Lemma run_confirmed (chain : list (string * Middleware)) :
  Forall (fun nm => confirmed_only (snd nm)) chain ->
  forall w st req sid s' u,
    store_of (snd (run chain w st req)) !! sid = Some s' -> passport_user s' = Some u ->
    (exists s, st !! sid = Some s /\ passport_user s = Some u)
    \/ (sid = regen_sid w /\ provider_confirmed w (query req) u).
Proof.
  induction 1 as [|[n m] rest Hm _ IH]; intros w st req sid s' u Hl Hu; [eauto|].
  cbn [run] in Hl. simpl in Hm. destruct (Hm w st req) as [Hst Hq].
  destruct (m w st req) as [ev s]. simpl in Hst, Hq.
  destruct s as [st1 req1| | |]; try (simpl in Hl; eauto; fail).
  specialize (IH w st1 req1 sid s' u).
  destruct (run rest w st1 req1) as [ev' s1]. simpl in Hl, IH.
  destruct (IH Hl Hu) as [(s0 & Hs0 & Hu0)|[-> Hp]].
  - apply (Hst sid s0 u Hs0 Hu0).
  - right. split; [done|]. by rewrite <- (Hq st1 req1 eq_refl).
Qed.


Lemma routes_confirmed (env : Env) (google : Registry) (pth : string) :
  (forall s, google = Some s -> stateStore s = NullStore /\ s_verify s = App.verify) ->
  Forall (fun nm => confirmed_only (snd nm))
    (App.lookup_route (App.routes env google) pth).
Proof.
  intros Hg. cbn [App.lookup_route App.routes].
  repeat match goal with
         | |- context [String.eqb ?a pth] => destruct (String.eqb a pth)
         end;
    each_of_chain
      ltac:(first [ apply confirmed_requireAuth | apply confirmed_logout
                  | apply confirmed_auth_google; exact Hg
                  | apply confirmed_authenticate; exact Hg
                  | intros w st req; apply confirmed_sends ]).
Qed.

(** The session middleware adds nothing to the store: it can only drop the
    expired session of the request's cookie. *)
Lemma load_store (w : World) (st : Store) (h : HttpRequest) st0 req :
  SessionMw.load w st h = (st0, req) ->
  st0 = st
  \/ exists c s, h_cookie h = Some c /\ st !! c = Some s /\ expires s <= now w
                 /\ st0 = delete c st.
Proof.
  unfold SessionMw.load, SessionMw.get. intros H.
  destruct (h_cookie h) as [c|]; [destruct (st !! c) as [s|] eqn:Hc|].
  - destruct (Z.leb_spec (expires s) (now w)); inversion H; subst; [|by left].
    right. exists c, s. done.
  - inversion H; by left.
  - inversion H; by left.
Qed.

Lemma load_lookup (w : World) (st : Store) (h : HttpRequest) st0 req sid s :
  SessionMw.load w st h = (st0, req) -> st0 !! sid = Some s -> st !! sid = Some s.
Proof.
  intros Hl Hs. destruct (load_store _ _ _ _ _ Hl) as [->|(c & s0 & _ & _ & _ & ->)];
    [done|]. by apply lookup_delete_Some in Hs as [_ Hs].
Qed.

Lemma touch_lookup_inv (w : World) (h : HttpRequest) (st : Store) (sid : string) s' :
  SessionMw.touch w h st !! sid = Some s' ->
  exists s, st !! sid = Some s
            /\ passport_user s = passport_user s' /\ oauth_state s = oauth_state s'.
Proof.
  intros Hs'. destruct (st !! sid) as [s|] eqn:Hs.
  - destruct (touch_lookup_Some w h st sid s Hs) as (s1 & H1 & Hu & Ho & _).
    rewrite H1 in Hs'. inversion Hs'; subst. eauto.
  - by rewrite (touch_lookup_None w h st sid Hs) in Hs'.
Qed.

(** X8. No request logs anybody in without the provider: when after a
    request a session holds a user, then either the session held that user
    before the request, or it is the session regenerated by this request,
    the provider has answered the request's code with tokens and a profile,
    and the user is what the verify callback makes of that profile. *)
Theorem session_users_come_from_provider (env : Env) (w : World) (st : Store)
    (h : HttpRequest) ev st' out (sid : string) (s' : Session) (u : User.t) :
  App.serve env w st h = Some (ev, st', out) ->
  st' !! sid = Some s' -> passport_user s' = Some u ->
  (exists s, st !! sid = Some s /\ passport_user s = Some u)
  \/ (sid = regen_sid w /\ provider_confirmed w (h_query h) u).
Proof.
  unfold App.serve. intros Hserve Hs' Hu.
  assert (Hg : exists google,
             App.startup env = inr google
             /\ forall s, google = Some s ->
                          stateStore s = NullStore /\ s_verify s = App.verify).
  { destruct (startup_cases env) as [[_ H]|(cid & _ & H)]; eexists; (split; [exact H|]).
    - discriminate.
    - intros s Hs. inversion Hs; subst. done. }
  destruct Hg as (google & Hstart & Hg). rewrite Hstart in Hserve.
  unfold App.handle in Hserve.
  destruct (SessionMw.load w st h) as [st0 req0] eqn:Hl.
  destruct (load_req _ _ _ _ _ Hl) as (_ & Hq & _).
  pose proof (run_confirmed
                (("passport.session", session_strategy App.deserializeUser)
                   :: App.lookup_route (App.routes env google) (h_path h))) as Hrun.
  specialize (Hrun ltac:(constructor; [apply confirmed_session_strategy
                                      | by apply routes_confirmed]) w st0 req0 sid).
  destruct (run _ w st0 req0) as [ev0 s0]. simpl in Hrun.
  assert (Hfin : snd (fst (App.finish s0)) = store_of s0) by (destruct s0; done).
  destruct (App.finish s0) as [[ev1 st1] out1]. simpl in Hfin. subst st1.
  inversion Hserve; subst. clear Hserve.
  destruct (touch_lookup_inv _ _ _ _ _ Hs') as (s1 & Hs1 & Hu1 & _).
  destruct (Hrun s1 u Hs1 ltac:(congruence)) as [(s2 & Hs2 & Hu2)|[-> Hp]].
  - left. exists s2. split; [|done]. by apply (load_lookup _ _ _ _ _ _ _ Hl).
  - right. split; [done|]. by rewrite <- Hq.
Qed.

Lemma session_users_come_from_provider_witness :
  (exists s, (∅ : Store) !! "sid-2" = Some s /\ passport_user s = Some Scenario.principal)
  \/ ("sid-2" = regen_sid Scenario.world
      /\ provider_confirmed Scenario.world
           (h_query (Scenario.callback_request (Some "abc123"))) Scenario.principal).
Proof.
  apply (session_users_come_from_provider Scenario.env Scenario.world ∅
           (Scenario.callback_request (Some "abc123"))
           [ Entered "passport.session"; Entered "passport.authenticate";
             TokenRequest "validcode"; ProfileRequest "access"; Entered "callback" ]
           {[ "sid-2" := mkSession (Some Scenario.principal) None 86401000 ]}
           (Replied (res_redirect "/dashboard"))
           "sid-2" (mkSession (Some Scenario.principal) None 86401000) Scenario.principal).
  - vm_compute. reflexivity.
  - vm_compute. reflexivity.
  - reflexivity.
Defined.

(** ** The routes that only read *)








(** ** Logout and the guard *)

(** X10. Logout ends the session for the guard: after a GET [/auth/logout]
    that the session layer carries out without error, the id that the
    request presented authorises nobody, and both protected routes answer
    it with 401, at any later time. *)
Theorem logout_then_protected_is_refused (env : Env) (w w' : World) (st : Store)
    (q q' : Query) (sid : string) :
  store_error w = None ->
  exists st1,
    App.serve env w st (mkHttp "/auth/logout" q (Some sid))
    = Some ([Entered "passport.session"; Entered "logout"], st1, Replied (res_redirect "/"))
    /\ App.authorize w' st1 (Some sid) = None
    /\ (exists st2,
          App.serve env w' st1 (mkHttp "/dashboard" q' (Some sid))
          = Some ([Entered "passport.session"; Entered "requireAuth"], st2,
                  Replied (res_status_json 401
                             (JObj [("error", JStr "Authentication required")]))))
    /\ (exists st2,
          App.serve env w' st1 (mkHttp "/api/user" q' (Some sid))
          = Some ([Entered "passport.session"; Entered "requireAuth"], st2,
                  Replied (res_status_json 401
                             (JObj [("error", JStr "Authentication required")])))).
Proof.
  intros Hok.
  destruct (logout_response env w st q (Some sid)) as (st1 & Hout & Hgone).
  rewrite Hok in Hout. exists st1. split; [exact Hout|].
  assert (Hau : App.authorize w' st1 (Some sid) = None).
  { unfold App.authorize, SessionMw.load, SessionMw.get; simpl.
    by rewrite (Hgone Hok sid eq_refl). }
  split; [exact Hau|]. split; apply guard_rejects; auto.
Qed.

Lemma logout_then_protected_is_refused_witness :
  let st : Store := {[ "sid-2" := mkSession (Some Scenario.principal) None 86401000 ]} in
  exists st1,
    App.serve Scenario.env (Scenario.world_with Scenario.doc 2000) st
      (mkHttp "/auth/logout" Scenario.no_query (Some "sid-2"))
    = Some ([Entered "passport.session"; Entered "logout"], st1, Replied (res_redirect "/"))
    /\ App.authorize (Scenario.world_with Scenario.doc 3000) st1 (Some "sid-2") = None
    /\ (exists st2,
          App.serve Scenario.env (Scenario.world_with Scenario.doc 3000) st1
            (mkHttp "/dashboard" Scenario.no_query (Some "sid-2"))
          = Some ([Entered "passport.session"; Entered "requireAuth"], st2,
                  Replied (res_status_json 401
                             (JObj [("error", JStr "Authentication required")]))))
    /\ (exists st2,
          App.serve Scenario.env (Scenario.world_with Scenario.doc 3000) st1
            (mkHttp "/api/user" Scenario.no_query (Some "sid-2"))
          = Some ([Entered "passport.session"; Entered "requireAuth"], st2,
                  Replied (res_status_json 401
                             (JObj [("error", JStr "Authentication required")])))).
Proof.
  intros st.
  apply (logout_then_protected_is_refused Scenario.env
           (Scenario.world_with Scenario.doc 2000) (Scenario.world_with Scenario.doc 3000)
           st Scenario.no_query Scenario.no_query "sid-2").
  reflexivity.
Defined.

(** ** Sign-ins that do not complete *)

(** The callback route on a configured server, up to what the strategy does
    with the query. *)
Lemma callback_route (env : Env) (w : World) (st : Store) (h : HttpRequest) (cid : string) :
  env !! "GOOGLE_CLIENT_ID" = Some cid -> cid <> "" ->
  truthy (env !! "GOOGLE_CLIENT_SECRET") = true ->
  h_path h = "/auth/google/callback" ->
  exists st0 req,
    query req = h_query h
    /\ App.serve env w st h
       = Some (let '(ev, s) :=
                 run [ ("passport.authenticate",
                        App.callback_authenticate
                          (Some (mkStrategy cid "/auth/google/callback" NullStore App.verify)));
                       ("callback", App.callback) ] w st0 req in
               let '(ev', st', out) := App.finish s in
               (Entered "passport.session" :: ev ++ ev', SessionMw.touch w h st', out)).
Proof.
  intros Hid Hne Hsec Hpath. unfold App.serve.
  rewrite (startup_configured env cid Hid Hne Hsec).
  destruct (handle_route env (Some (mkStrategy cid "/auth/google/callback" NullStore App.verify))
              w st h) as (st0 & req & _ & Hq & _ & ->).
  exists st0, req. split; [exact Hq|]. rewrite Hpath. reflexivity.
Qed.

(** X11. When the user refuses consent, the provider sends the browser back
    with [error=access_denied]: the callback then answers with the redirect
    to [/login-failed] given as [failureRedirect] (index.js:114), without
    asking the provider for anything and without running the route's own
    function; and [/login-failed] is a public page that is always served. *)
Theorem denied_consent_goes_to_failure_page (env : Env) (w : World) (st : Store)
    (qc qs : option string) (q : Query) (ck : option string) (cid : string) :
  env !! "GOOGLE_CLIENT_ID" = Some cid -> cid <> "" ->
  truthy (env !! "GOOGLE_CLIENT_SECRET") = true ->
  (exists st',
     App.serve env w st
       (mkHttp "/auth/google/callback" (mkQuery qc qs (Some "access_denied")) ck)
     = Some ([Entered "passport.session"; Entered "passport.authenticate"], st',
             Replied (res_redirect "/login-failed")))
  /\ (exists st',
        App.serve env w st (mkHttp "/login-failed" q ck)
        = Some ([Entered "passport.session"; Entered "login_failed"], st',
                Replied (res_send
                  [ "<h1>❌ Login Failed</h1>";
                    "<p>OAuth configuration might be incorrect.</p>";
                    anchor "/" "Go back home" "" ]))).
Proof.
  intros Hid Hne Hsec. split.
  - destruct (callback_route env w st
                (mkHttp "/auth/google/callback" (mkQuery qc qs (Some "access_denied")) ck)
                cid Hid Hne Hsec eq_refl) as (st0 & req & Hq & ->).
    simpl in Hq. cbn [run]. unfold App.callback_authenticate, authenticate.
    rewrite Hq. cbn -[SessionMw.touch]. eauto.
  - unfold App.serve. destruct (startup_total env) as [google ->].
    destruct (handle_route env google w st (mkHttp "/login-failed" q ck))
      as (st0 & req & _ & _ & _ & ->).
    cbn -[SessionMw.touch anchor]. eauto.
Qed.

Lemma denied_consent_goes_to_failure_page_witness :
  (exists st',
     App.serve Scenario.env Scenario.world ∅
       (mkHttp "/auth/google/callback" (mkQuery None None (Some "access_denied")) None)
     = Some ([Entered "passport.session"; Entered "passport.authenticate"], st',
             Replied (res_redirect "/login-failed")))
  /\ (exists st',
        App.serve Scenario.env Scenario.world ∅ (mkHttp "/login-failed" Scenario.no_query None)
        = Some ([Entered "passport.session"; Entered "login_failed"], st',
                Replied (res_send
                  [ "<h1>❌ Login Failed</h1>";
                    "<p>OAuth configuration might be incorrect.</p>";
                    anchor "/" "Go back home" "" ]))).
Proof.
  apply (denied_consent_goes_to_failure_page Scenario.env Scenario.world ∅ None None
           Scenario.no_query None "client-id"); first [reflexivity | discriminate].
Defined.

(** X12. When the provider does not honour the code, or honours it but does
    not deliver the profile, the callback ends in the error-handling
    middleware of index.js:182-185: the error is written to the console and
    the client gets status 500 with [{error: 'Internal server error'}], not
    the failure page; the route's own function does not run. *)
Theorem provider_failure_is_internal_error (env : Env) (w : World) (st : Store)
    (qs ck : option string) (cid code : string) :
  env !! "GOOGLE_CLIENT_ID" = Some cid -> cid <> "" ->
  truthy (env !! "GOOGLE_CLIENT_SECRET") = true ->
  code <> "" ->
  (token (provider w) code = None
   \/ exists accessToken refreshToken,
        token (provider w) code = Some (accessToken, refreshToken)
        /\ userinfo (provider w) accessToken = None) ->
  exists calls e st',
    App.serve env w st (mkHttp "/auth/google/callback" (mkQuery (Some code) qs None) ck)
    = Some ([Entered "passport.session"; Entered "passport.authenticate"]
              ++ TokenRequest code :: calls ++ [ConsoleError e],
            st',
            Replied (res_status_json 500 (JObj [("error", JStr "Internal server error")])))
    /\ forall ev, In ev calls -> exists accessToken, ev = ProfileRequest accessToken.
Proof.
  intros Hid Hne Hsec Hcode Hfail.
  destruct (callback_route env w st
              (mkHttp "/auth/google/callback" (mkQuery (Some code) qs None) ck)
              cid Hid Hne Hsec eq_refl) as (st0 & req & Hq & ->).
  simpl in Hq. cbn [run].
  assert (Hgiven : given (Some code) = Some code).
  { unfold given. by destruct (String.eqb_spec code ""). }
  unfold App.callback_authenticate, authenticate, complete, state_verify.
  rewrite Hq. cbn -[SessionMw.touch given]. rewrite Hgiven.
  destruct Hfail as [Htok|(accessToken & refreshToken & Htok & Hinfo)].
  - rewrite Htok. cbn -[SessionMw.touch].
    exists [], (OtherError "Failed to obtain access token"). eexists.
    split; [reflexivity|]. intros ev [].
  - rewrite Htok, Hinfo. cbn -[SessionMw.touch].
    exists [ProfileRequest accessToken], (OtherError "Failed to fetch user profile").
    eexists. split; [reflexivity|]. intros ev [<-|[]]. eauto.
Qed.

Lemma provider_failure_is_internal_error_witness :
  exists calls e st',
    App.serve Scenario.env Scenario.world ∅
      (mkHttp "/auth/google/callback" (mkQuery (Some "stale") None None) None)
    = Some ([Entered "passport.session"; Entered "passport.authenticate"]
              ++ TokenRequest "stale" :: calls ++ [ConsoleError e],
            st',
            Replied (res_status_json 500 (JObj [("error", JStr "Internal server error")])))
    /\ forall ev, In ev calls -> exists accessToken, ev = ProfileRequest accessToken.
Proof.
  apply (provider_failure_is_internal_error Scenario.env Scenario.world ∅ None None
           "client-id" "stale"); try first [reflexivity | discriminate].
  left. reflexivity.
Defined.

(** ** What the server says when it fails *)

Ltac solve_replies :=
  intros w st req st' r;
  unfold App.requireAuth, App.health, App.test, App.login_failed, App.dashboard,
    App.api_user, App.home, App.callback, App.logout, logOut, sends, prop, bind, ret,
    throw, isAuthenticated;
  repeat case_match; simplify_eq; simpl;
  intros H; inversion H; subst; clear H;
  intros Hs; simpl in Hs; try discriminate Hs; eauto 6.

Lemma replies_requireAuth : replies fixed_error App.requireAuth.
Proof. solve_replies. Qed.

Lemma replies_health (env : Env) : replies fixed_error (App.health env).
Proof. solve_replies. Qed.

Lemma replies_test (env : Env) : replies fixed_error (App.test env).
Proof. solve_replies. Qed.

Lemma replies_login_failed : replies fixed_error App.login_failed.
Proof. solve_replies. Qed.

Lemma replies_dashboard : replies fixed_error App.dashboard.
Proof. solve_replies. Qed.

Lemma replies_api_user : replies fixed_error App.api_user.
Proof. solve_replies. Qed.

Lemma replies_home (env : Env) : replies fixed_error (App.home env).
Proof. solve_replies. Qed.

Lemma replies_callback : replies fixed_error App.callback.
Proof. solve_replies. Qed.

Lemma replies_logout : replies fixed_error App.logout.
Proof. solve_replies. Qed.

Lemma replies_session_strategy :
  replies fixed_error (session_strategy App.deserializeUser).
Proof.
  intros w st req st' r. unfold session_strategy, App.deserializeUser.
  by destruct (passport_user (session req)).
Qed.

Lemma replies_authenticate (google : Registry) (url : option string)
    (scopes : list string) (has_next : bool) :
  replies fixed_error
    (authenticate App.serializeUser google (mkAuthOptions scopes url) has_next).
Proof.
  intros w st req st' r.
  unfold authenticate, complete, begin, state_verify, logIn, call_next, fail,
    App.serializeUser, ret, throw.
  repeat case_match; simplify_eq; simpl;
    intros H; inversion H; subst; clear H;
    intros Hs; simpl in Hs; discriminate Hs.
Qed.

Lemma replies_auth_google (env : Env) (google : Registry) :
  replies fixed_error (App.auth_google env google).
Proof.
  intros w st req st' r. unfold App.auth_google.
  destruct (negb _).
  - simpl. intros H; inversion H; subst. intros _. simpl. eauto.
  - apply (replies_authenticate google).
Qed.

Lemma run_replies (P : Response -> Prop) (chain : list (string * Middleware)) :
  Forall (fun nm => replies P (snd nm)) chain ->
  forall w st req st' r, snd (run chain w st req) = Respond st' r -> P r.
Proof.
  induction 1 as [|[n m] rest Hm _ IH]; intros w st req st' r; [done|].
  cbn [run]. simpl in Hm. specialize (Hm w st req).
  destruct (m w st req) as [ev s]. simpl in Hm.
  destruct s as [st1 req1| | |]; simpl; eauto.
  specialize (IH w st1 req1 st' r). by destruct (run rest w st1 req1).
Qed.

Lemma routes_reply (env : Env) (google : Registry) (pth : string) :
  Forall (fun nm => replies fixed_error (snd nm))
    (App.lookup_route (App.routes env google) pth).
Proof.
  cbn [App.lookup_route App.routes].
  repeat match goal with
         | |- context [String.eqb ?a pth] => destruct (String.eqb a pth)
         end;
    each_of_chain
      ltac:(first [ apply replies_requireAuth | apply replies_health | apply replies_test
                  | apply replies_login_failed | apply replies_dashboard
                  | apply replies_api_user | apply replies_home | apply replies_callback
                  | apply replies_logout | apply replies_auth_google
                  | apply (replies_authenticate google) ]).
Qed.

(** X13. Whatever goes wrong, a client that gets status 500 gets one of
    three fixed JSON bodies: [{error: 'Google OAuth not configured'}],
    [{error: 'Logout failed'}] or [{error: 'Internal server error'}]. The
    text of an error that was thrown or passed to [next] never reaches the
    response. *)
Theorem server_errors_have_fixed_bodies (env : Env) (w : World) (st : Store)
    (h : HttpRequest) ev st' (r : Response) :
  App.serve env w st h = Some (ev, st', Replied r) ->
  status r = 500 ->
  exists msg,
    payload r = PJson (JObj [("error", JStr msg)])
    /\ (msg = "Google OAuth not configured" \/ msg = "Logout failed"
        \/ msg = "Internal server error").
Proof.
  unfold App.serve. destruct (startup_total env) as [google ->]. unfold App.handle.
  destruct (SessionMw.load w st h) as [st0 req0].
  pose proof (run_replies fixed_error
                (("passport.session", session_strategy App.deserializeUser)
                   :: App.lookup_route (App.routes env google) (h_path h))
                ltac:(constructor; [apply replies_session_strategy | apply routes_reply])
                w st0 req0) as Hrun.
  destruct (run _ w st0 req0) as [ev0 s0]. simpl in Hrun.
  destruct s0 as [st1 req1|st1 e|st1 r1|st1 e]; simpl; intros H; inversion H; subst.
  - discriminate.
  - intros _. simpl. eauto 6.
  - apply (Hrun st1 r eq_refl).
Qed.

Lemma server_errors_have_fixed_bodies_witness :
  exists msg,
    payload (res_status_json 500 (JObj [("error", JStr "Logout failed")]))
    = PJson (JObj [("error", JStr msg)])
    /\ (msg = "Google OAuth not configured" \/ msg = "Logout failed"
        \/ msg = "Internal server error").
Proof.
  apply (server_errors_have_fixed_bodies Scenario.env
           (mkWorld 2000 "sid-3" "sid-4" "abc123" (Some (OtherError "store down"))
              (Scenario.google_with Scenario.doc))
           ∅ (mkHttp "/auth/logout" Scenario.no_query None)
           [Entered "passport.session"; Entered "logout"] ∅).
  - vm_compute. reflexivity.
  - reflexivity.
Defined.

(** ** The verify callback on the provider's documents *)

(** X14. What the verify callback makes of a user-info document, through
    Passport's profile: with a non-empty email and a non-empty picture it
    hands over the user of the document's [sub], [email], [name] and
    [picture] with provider [google]; in every other case it throws the
    [TypeError] of reading a property of [undefined]. It never reports an
    error through [done] and never calls [done] without a user. *)
Theorem verify_on_document (accessToken refreshToken : string) (doc : UserInfo.t) :
  App.verify accessToken refreshToken (parse doc)
  = match given (UserInfo.email doc), given (UserInfo.picture doc) with
    | Some e, Some pic =>
        Done None (Some (User.mk (UserInfo.sub doc) e (UserInfo.name doc) "google" pic))
    | _, _ => Rejected (TypeError "Cannot read properties of undefined")
    end.
Proof.
  unfold App.verify, App.build_user, parse, given.
  destruct (UserInfo.email doc) as [e|]; [destruct (String.eqb e "")|];
    (destruct (UserInfo.picture doc) as [pic|]; [destruct (String.eqb pic "")|]);
    reflexivity.
Qed.

(** ** The end of a session's 24 hours *)

(** X15. A session lasts the 24 hours of [cookie.maxAge] (index.js:39) from
    the sign-in if nothing is heard of it in between: the first request that
    presents its id 86400000 ms after the sign-in or later is not
    authorised, and a protected route answers it with 401. *)
Theorem session_expires_after_24_hours (env : Env) (w w' : World) (st : Store)
    (qs ck : option string) (q' : Query)
    (code accessToken refreshToken : string) (doc : UserInfo.t) (e pic : string) :
  truthy (env !! "GOOGLE_CLIENT_ID") = true ->
  truthy (env !! "GOOGLE_CLIENT_SECRET") = true ->
  code <> "" ->
  token (provider w) code = Some (accessToken, refreshToken) ->
  userinfo (provider w) accessToken = Some doc ->
  UserInfo.email doc = Some e -> e <> "" ->
  UserInfo.picture doc = Some pic -> pic <> "" ->
  store_error w = None ->
  now w + 86400000 <= now w' ->
  exists ev st1 st2,
    App.serve env w st (mkHttp "/auth/google/callback" (mkQuery (Some code) qs None) ck)
    = Some (ev, st1, Replied (res_redirect "/dashboard"))
    /\ App.authorize w' st1 (Some (regen_sid w)) = None
    /\ App.serve env w' st1 (mkHttp "/api/user" q' (Some (regen_sid w)))
       = Some ([Entered "passport.session"; Entered "requireAuth"], st2,
               Replied (res_status_json 401
                          (JObj [("error", JStr "Authentication required")]))).
Proof.
  intros Hid Hsec Hcode Htok Hinfo He Hene Hp Hpne Hstore Hlate.
  destruct (callback_login env w st qs ck code accessToken refreshToken doc e pic)
    as (st1 & Hcb & Hsess); try done.
  assert (Hau : App.authorize w' st1 (Some (regen_sid w)) = None).
  { unfold App.authorize, SessionMw.load, SessionMw.get; simpl.
    rewrite Hsess; simpl.
    destruct (Z.leb_spec (now w + maxAge) (now w')) as [_|Hlt]; [done|].
    unfold maxAge in Hlt. lia. }
  destruct (guard_rejects env w' st1 "/api/user" q' (Some (regen_sid w))) as [st2 Hguard];
    [by right | exact Hau |].
  eexists _, st1, st2. done.
Qed.

Lemma session_expires_after_24_hours_witness :
  exists ev st1 st2,
    App.serve Scenario.env Scenario.world ∅ (Scenario.callback_request None)
    = Some (ev, st1, Replied (res_redirect "/dashboard"))
    /\ App.authorize (Scenario.world_with Scenario.doc 86401000) st1 (Some "sid-2") = None
    /\ App.serve Scenario.env (Scenario.world_with Scenario.doc 86401000) st1
         (mkHttp "/api/user" Scenario.no_query (Some "sid-2"))
       = Some ([Entered "passport.session"; Entered "requireAuth"], st2,
               Replied (res_status_json 401
                          (JObj [("error", JStr "Authentication required")]))).
Proof.
  apply (session_expires_after_24_hours Scenario.env Scenario.world
           (Scenario.world_with Scenario.doc 86401000) ∅ None None Scenario.no_query
           "validcode" "access" "refresh" Scenario.doc "a@x.com" "http://img");
    try reflexivity; try discriminate.
Defined.

(** ** The sign-in routes without a registered strategy *)

(** X16. While no strategy is registered, that is unless both credentials
    are set, no sign-in route reaches the provider and both answer with
    status 500. The callback ends in the error-handling middleware. The
    login route answers with [{error: 'Google OAuth not configured'}] if the
    client id is missing; if only the secret is missing its guard, which
    looks at the client id alone, lets the request through to Passport, and
    the request ends in the error-handling middleware as well. *)
Theorem unregistered_strategy_answers_500 (env : Env) (w : World) (st : Store)
    (q : Query) (ck : option string) :
  truthy (env !! "GOOGLE_CLIENT_ID") && truthy (env !! "GOOGLE_CLIENT_SECRET") = false ->
  (exists st',
     App.serve env w st (mkHttp "/auth/google/callback" q ck)
     = Some ([ Entered "passport.session"; Entered "passport.authenticate";
               ConsoleError (OtherError "Unknown authentication strategy") ], st',
             Replied (res_status_json 500 (JObj [("error", JStr "Internal server error")]))))
  /\ (exists st',
        App.serve env w st (mkHttp "/auth/google" q ck)
        = Some (if truthy (env !! "GOOGLE_CLIENT_ID")
                then [ Entered "passport.session"; Entered "auth_google";
                       ConsoleError (TypeError "next is not a function") ]
                else [ Entered "passport.session"; Entered "auth_google" ],
                st',
                Replied (res_status_json 500
                  (JObj [("error",
                          JStr (if truthy (env !! "GOOGLE_CLIENT_ID")
                                then "Internal server error"
                                else "Google OAuth not configured"))])))).
Proof.
  intros Hoff.
  assert (Hs : App.startup env = inr None).
  { unfold App.startup. by rewrite Hoff. }
  unfold App.serve. rewrite Hs. split.
  - destruct (handle_route env None w st (mkHttp "/auth/google/callback" q ck))
      as (st0 & req & _ & _ & _ & ->).
    cbn -[SessionMw.touch]. eauto.
  - destruct (handle_route env None w st (mkHttp "/auth/google" q ck))
      as (st0 & req & _ & _ & _ & ->).
    cbn [h_path App.lookup_route App.routes String.eqb Ascii.eqb Bool.eqb run].
    unfold App.auth_google.
    destruct (truthy (env !! "GOOGLE_CLIENT_ID")); cbn -[SessionMw.touch]; eauto.
Qed.

Lemma unregistered_strategy_answers_500_witness :
  let env : Env := {[ "GOOGLE_CLIENT_ID" := "client-id" ]} in
  (exists st',
     App.serve env Scenario.world ∅
       (mkHttp "/auth/google/callback" (mkQuery (Some "validcode") None None) None)
     = Some ([ Entered "passport.session"; Entered "passport.authenticate";
               ConsoleError (OtherError "Unknown authentication strategy") ], st',
             Replied (res_status_json 500 (JObj [("error", JStr "Internal server error")]))))
  /\ (exists st',
        App.serve env Scenario.world ∅ (mkHttp "/auth/google" Scenario.no_query None)
        = Some ([ Entered "passport.session"; Entered "auth_google";
                  ConsoleError (TypeError "next is not a function") ],
                st',
                Replied (res_status_json 500
                  (JObj [("error", JStr "Internal server error")])))).
Proof.
  intros env.
  exact (unregistered_strategy_answers_500 env Scenario.world ∅ _ None eq_refl).
Defined.
